(** * A shallow embedding of the serial HDF5 backend of openPMD-api

    Sources: [src/IO/HDF5/HDF5IOHandler.cpp] (the task queue drain
    [HDF5IOHandlerImpl::flush] and the per-operation handlers) and the
    interface [include/openPMD/IO/ADIOS/ADIOS1IOHandler.hpp].

    Conventions of the model:
    - The file is built without [DEBUG], so [ASSERT] is a no-op, exactly as
      the [#else] branch of the macro: the status codes of native calls are
      never inspected, and only the results the C++ code branches on are
      taken from the native library.
    - The HDF5 library and the file system are an oracle [Native] whose
      answers may depend on the whole trace of native calls made so far.
    - A [Writable*] is a node index; the Writable objects live in an arena
      [nodes] (pointer dereference is total).
    - C++ exceptions are the [Throw] outcome of a state-and-exception monad
      in which the state reached before the [throw] is kept, as in C++. *)

From stdpp Require Import base gmap strings list sorting.
From Stdlib Require Import String Ascii ZArith.
Import ListNotations.
Open Scope Z_scope.

(* ------------------------------------------------------------------ *)
(** ** Datatypes and attribute values *)

(** [openPMD::Datatype] *)
Inductive Datatype :=
  | CHAR | UCHAR | INT16 | INT32 | INT64 | UINT16 | UINT32 | UINT64
  | FLOAT | DOUBLE | LONG_DOUBLE | STRING
  | VEC_CHAR | VEC_INT16 | VEC_INT32 | VEC_INT64
  | VEC_UCHAR | VEC_UINT16 | VEC_UINT32 | VEC_UINT64
  | VEC_FLOAT | VEC_DOUBLE | VEC_LONG_DOUBLE | VEC_STRING
  | ARR_DBL_7 | BOOL | DATATYPE | UNDEFINED.

#[global] Instance Datatype_eq_dec : EqDecision Datatype.
Proof. solve_decision. Defined.

(** [openPMD::AccessType] *)
Inductive AccessType := READ_ONLY | READ_WRITE | CREATE.

#[global] Instance AccessType_eq_dec : EqDecision AccessType.
Proof. solve_decision. Defined.

(** The value held by an attribute ([Attribute::resource]): one alternative
    per concrete datatype.  Integers are kept as [Z], floating point values as
    their bit patterns ([Z]); the model never computes with them. *)
Inductive resource :=
  | R_CHAR (c : ascii) | R_UCHAR (u : Z)
  | R_INT16 (i : Z) | R_INT32 (i : Z) | R_INT64 (i : Z)
  | R_UINT16 (u : Z) | R_UINT32 (u : Z) | R_UINT64 (u : Z)
  | R_FLOAT (bits : Z) | R_DOUBLE (bits : Z) | R_LONG_DOUBLE (bits : Z)
  | R_STRING (s : string)
  | R_VEC_CHAR (v : list ascii)
  | R_VEC_INT16 (v : list Z) | R_VEC_INT32 (v : list Z) | R_VEC_INT64 (v : list Z)
  | R_VEC_UCHAR (v : list Z)
  | R_VEC_UINT16 (v : list Z) | R_VEC_UINT32 (v : list Z) | R_VEC_UINT64 (v : list Z)
  | R_VEC_FLOAT (v : list Z) | R_VEC_DOUBLE (v : list Z) | R_VEC_LONG_DOUBLE (v : list Z)
  | R_VEC_STRING (v : list string)
  | R_ARR_DBL_7 (a : Z * Z * Z * Z * Z * Z * Z)
  | R_BOOL (b : bool).

(** The tag of the alternative held by a resource. *)
Definition dtype_of (r : resource) : Datatype :=
  match r with
  | R_CHAR _ => CHAR | R_UCHAR _ => UCHAR
  | R_INT16 _ => INT16 | R_INT32 _ => INT32 | R_INT64 _ => INT64
  | R_UINT16 _ => UINT16 | R_UINT32 _ => UINT32 | R_UINT64 _ => UINT64
  | R_FLOAT _ => FLOAT | R_DOUBLE _ => DOUBLE | R_LONG_DOUBLE _ => LONG_DOUBLE
  | R_STRING _ => STRING
  | R_VEC_CHAR _ => VEC_CHAR
  | R_VEC_INT16 _ => VEC_INT16 | R_VEC_INT32 _ => VEC_INT32 | R_VEC_INT64 _ => VEC_INT64
  | R_VEC_UCHAR _ => VEC_UCHAR
  | R_VEC_UINT16 _ => VEC_UINT16 | R_VEC_UINT32 _ => VEC_UINT32 | R_VEC_UINT64 _ => VEC_UINT64
  | R_VEC_FLOAT _ => VEC_FLOAT | R_VEC_DOUBLE _ => VEC_DOUBLE
  | R_VEC_LONG_DOUBLE _ => VEC_LONG_DOUBLE
  | R_VEC_STRING _ => VEC_STRING
  | R_ARR_DBL_7 _ => ARR_DBL_7
  | R_BOOL _ => BOOL
  end.

(** The C++ type [T] of [get< T >()], indexed by the datatype tag.  The meta
    tags [DATATYPE] and [UNDEFINED] have no value type. *)
Definition carrier (d : Datatype) : Type :=
  match d with
  | CHAR => ascii | UCHAR => Z
  | INT16 | INT32 | INT64 | UINT16 | UINT32 | UINT64 => Z
  | FLOAT | DOUBLE | LONG_DOUBLE => Z
  | STRING => string
  | VEC_CHAR => list ascii
  | VEC_INT16 | VEC_INT32 | VEC_INT64 | VEC_UCHAR
  | VEC_UINT16 | VEC_UINT32 | VEC_UINT64
  | VEC_FLOAT | VEC_DOUBLE | VEC_LONG_DOUBLE => list Z
  | VEC_STRING => list string
  | ARR_DBL_7 => Z * Z * Z * Z * Z * Z * Z
  | BOOL => bool
  | DATATYPE | UNDEFINED => Empty_set
  end.

(** Modelled from the spec: the constructor [Attribute(T v)] of
    [openPMD/backend/Attribute.hpp] (not among the sources): the value is
    stored in the alternative of its type. *)
Definition inject (T : Datatype) : carrier T -> resource :=
  match T return carrier T -> resource with
  | CHAR => R_CHAR | UCHAR => R_UCHAR
  | INT16 => R_INT16 | INT32 => R_INT32 | INT64 => R_INT64
  | UINT16 => R_UINT16 | UINT32 => R_UINT32 | UINT64 => R_UINT64
  | FLOAT => R_FLOAT | DOUBLE => R_DOUBLE | LONG_DOUBLE => R_LONG_DOUBLE
  | STRING => R_STRING
  | VEC_CHAR => R_VEC_CHAR
  | VEC_INT16 => R_VEC_INT16 | VEC_INT32 => R_VEC_INT32 | VEC_INT64 => R_VEC_INT64
  | VEC_UCHAR => R_VEC_UCHAR
  | VEC_UINT16 => R_VEC_UINT16 | VEC_UINT32 => R_VEC_UINT32
  | VEC_UINT64 => R_VEC_UINT64
  | VEC_FLOAT => R_VEC_FLOAT | VEC_DOUBLE => R_VEC_DOUBLE
  | VEC_LONG_DOUBLE => R_VEC_LONG_DOUBLE
  | VEC_STRING => R_VEC_STRING
  | ARR_DBL_7 => R_ARR_DBL_7
  | BOOL => R_BOOL
  | DATATYPE => fun e => match e with end
  | UNDEFINED => fun e => match e with end
  end.

(** Modelled from the spec: the read-out of the alternative of type [T]
    (the variant access behind [Attribute::get< T >()]); [None] when the
    resource holds another alternative. *)
Definition project (T : Datatype) (r : resource) : option (carrier T) :=
  match T return option (carrier T) with
  | CHAR => match r with R_CHAR c => Some c | _ => None end
  | UCHAR => match r with R_UCHAR u => Some u | _ => None end
  | INT16 => match r with R_INT16 i => Some i | _ => None end
  | INT32 => match r with R_INT32 i => Some i | _ => None end
  | INT64 => match r with R_INT64 i => Some i | _ => None end
  | UINT16 => match r with R_UINT16 u => Some u | _ => None end
  | UINT32 => match r with R_UINT32 u => Some u | _ => None end
  | UINT64 => match r with R_UINT64 u => Some u | _ => None end
  | FLOAT => match r with R_FLOAT f => Some f | _ => None end
  | DOUBLE => match r with R_DOUBLE f => Some f | _ => None end
  | LONG_DOUBLE => match r with R_LONG_DOUBLE f => Some f | _ => None end
  | STRING => match r with R_STRING s => Some s | _ => None end
  | VEC_CHAR => match r with R_VEC_CHAR v => Some v | _ => None end
  | VEC_INT16 => match r with R_VEC_INT16 v => Some v | _ => None end
  | VEC_INT32 => match r with R_VEC_INT32 v => Some v | _ => None end
  | VEC_INT64 => match r with R_VEC_INT64 v => Some v | _ => None end
  | VEC_UCHAR => match r with R_VEC_UCHAR v => Some v | _ => None end
  | VEC_UINT16 => match r with R_VEC_UINT16 v => Some v | _ => None end
  | VEC_UINT32 => match r with R_VEC_UINT32 v => Some v | _ => None end
  | VEC_UINT64 => match r with R_VEC_UINT64 v => Some v | _ => None end
  | VEC_FLOAT => match r with R_VEC_FLOAT v => Some v | _ => None end
  | VEC_DOUBLE => match r with R_VEC_DOUBLE v => Some v | _ => None end
  | VEC_LONG_DOUBLE => match r with R_VEC_LONG_DOUBLE v => Some v | _ => None end
  | VEC_STRING => match r with R_VEC_STRING v => Some v | _ => None end
  | ARR_DBL_7 => match r with R_ARR_DBL_7 a => Some a | _ => None end
  | BOOL => match r with R_BOOL b => Some b | _ => None end
  | DATATYPE | UNDEFINED => None
  end.

(** [openPMD::Attribute]: the held resource and the public [dtype] tag
    (the handlers assign [a.dtype] directly, as in [Attribute a(0);
    a.dtype = d;]). *)
Record Attribute := mkAttribute { att_resource : resource; att_dtype : Datatype }.

(** Modelled from the spec: [Attribute(resource r)]; the tag is the one of
    the held alternative. *)
Definition Attribute_of (r : resource) : Attribute := mkAttribute r (dtype_of r).

(** Exceptions raised by the handlers: [std::runtime_error],
    [openPMD::no_such_file_error], [openPMD::unsupported_data_error],
    [std::out_of_range] of [std::map::at], [std::invalid_argument] of
    [std::stoi], a failed typed read-out of a parameter variant, the
    failed typed read-out of an attribute, the
    [boost::filesystem::filesystem_error] of a failed file-system call, and
    the failure of [getH5DataType] for a datatype it cannot map. *)
Inductive Exn :=
  | RuntimeError (msg : string)
  | NoSuchFile (msg : string)
  | UnsupportedData (msg : string)
  | OutOfRange (key : string)
  | InvalidArgument (what : string)
  | BadGet
  | DatatypeMismatch (stored requested : Datatype)
  | FilesystemError (path : string)
  | DatatypeUnsupported (d : Datatype).

Inductive Res (A : Type) := Ok (a : A) | Throw (e : Exn).
Arguments Ok {A} a.
Arguments Throw {A} e.

(** Modelled from the spec: [Attribute::get< T >()] returns the held value
    when [T] is the stored tag and fails with a type mismatch otherwise. *)
Definition get (T : Datatype) (a : Attribute) : Res (carrier T) :=
  if decide (att_dtype a = T) then
    match project T (att_resource a) with
    | Some v => Ok v
    | None => Throw (DatatypeMismatch (att_dtype a) T)
    end
  else Throw (DatatypeMismatch (att_dtype a) T).

(* ------------------------------------------------------------------ *)
(** ** Task parameters, Writable nodes, native calls *)

(** [ParameterArgument]: the variant held by an entry of a task's parameter
    map.  [Extent] and [Offset] are both [std::vector< std::uint64_t >].
    A user buffer is named by a number: [PA_shared_data] holds a
    [std::shared_ptr< void >], [PA_raw_data] a [void*].  A shared output
    cell is named by the index of its pointee in [cells]: [PA_dtype_cell]
    holds a [std::shared_ptr< Datatype >], [PA_extent_cell] a
    [std::shared_ptr< Extent >], [PA_resource_cell] a
    [std::shared_ptr< Attribute::resource >] and [PA_strings_cell] a
    [std::shared_ptr< std::vector< std::string > >]. *)
Inductive ParameterArgument :=
  | PA_string (s : string)
  | PA_datatype (d : Datatype)
  | PA_extent (e : list Z)
  | PA_resource (r : resource)
  | PA_shared_data (buf : nat)
  | PA_raw_data (buf : nat)
  | PA_dtype_cell (cell : nat)
  | PA_extent_cell (cell : nat)
  | PA_resource_cell (cell : nat)
  | PA_strings_cell (cell : nat).

(** [std::map< std::string, ParameterArgument >] *)
Abbreviation ArgumentMap := (gmap string ParameterArgument).

(** [openPMD::Writable]: [written], [dirty], the position token
    [abstractFilePosition] (a [shared_ptr< HDF5FilePosition >], here the
    [location] string it holds) and the [parent] pointer. *)
Record Writable := mkWritable {
  written : bool;
  dirty : bool;
  abstractFilePosition : option string;
  parent : option nat }.

(** [H5F_ACC_RDONLY] and [H5F_ACC_RDWR] *)
Inductive FileFlags := H5F_ACC_RDONLY | H5F_ACC_RDWR.

(** The native calls that act on files, groups, datasets and attributes,
    in the order the handler makes them.  Calls that only build in-memory
    HDF5 objects (dataspaces, property lists, datatype handles) and calls
    that only query are not recorded. *)
Inductive H5Call :=
  | C_create_directories (dir : string)
  | C_remove (file : string)
  | C_Fcreate (name : string)
  | C_Fopen (name : string) (flags : FileFlags)
  | C_Fclose (file_id : Z)
  | C_Gopen (file_id : Z) (loc : string)
  | C_Gopen_sub (path : string)
  | C_Gcreate (folder : string)
  | C_Gclose
  | C_Dcreate (name : string) (dtype : Datatype) (dims chunk : list Z) (deflate : option Z)
  | C_Dopen (file_id : Z) (loc : string)
  | C_Dopen_sub (name : string)
  | C_Dset_extent (size : list Z)
  | C_Dwrite (dtype : Datatype) (buf : nat) (start block : list Z)
  | C_Dread (dtype : Datatype) (buf : nat) (start block : list Z)
  | C_Dclose
  | C_Ldelete (path : string)
  | C_Oopen (file_id : Z) (loc : string)
  | C_Oclose
  | C_Adelete (name : string)
  | C_Acreate (name : string) (dtype : Datatype)
  | C_Aopen (name : string)
  | C_Awrite (dtype : Datatype) (value : resource)
  | C_Aread (name : string)
  | C_Aclose.

(** Dataspace classes ([H5S_class_t]) and the datatype classification the
    handlers make with [H5Tequal] / [H5Tget_class]. *)
Inductive SpaceClass := H5S_SCALAR | H5S_SIMPLE | H5S_NULL.
Inductive H5Type :=
  | HT_native (d : Datatype)           (* H5T_NATIVE_CHAR ... H5T_NATIVE_LDOUBLE *)
  | HT_string
  | HT_enum (members : list string)
  | HT_compound
  | HT_other.
Inductive LinkKind := H5G_GROUP | H5G_DATASET | H5G_OTHER.

(** The HDF5 library and the file system, as seen by the handler: every
    answer may depend on the trace of native calls made before.
    [fs_exists t p] is the answer of [boost::filesystem::exists(p)], [None]
    when it throws; [fs_fails t c] tells whether the file-system call [c]
    ([create_directories], [remove]) throws.  [h5_datatype_ok a] tells
    whether [getH5DataType(a)] of [HDF5Auxiliary.cpp] (not among the
    sources) maps the attribute [a] to an HDF5 type. *)
Record Native := mkNative {
  fs_exists : list H5Call -> string -> option bool;
  fcreate_id : list H5Call -> string -> Z;
  fopen_id : list H5Call -> string -> Z;
  aexists : list H5Call -> string -> string -> bool;
  dset_info : list H5Call -> string -> SpaceClass * H5Type * list Z;
  attr_info : list H5Call -> string -> string -> SpaceClass * H5Type * list Z;
  attr_value : list H5Call -> string -> string -> resource;
  group_links : list H5Call -> string -> list (string * LinkKind);
  attr_names : list H5Call -> string -> list string;
  fs_fails : list H5Call -> H5Call -> bool;
  h5_datatype_ok : Attribute -> bool }.

(** What the handler writes into an output cell. *)
Inductive Cell :=
  | CDatatype (d : Datatype)
  | CExtent (e : list Z)
  | CResource (r : resource)
  | CStrings (l : list string).

(** The state the handler acts on: the Writable arena, the handler's
    [m_fileIDs] and [m_openFileIDs], the output cells of the tasks and the
    trace of native calls. *)
Record World := mkWorld {
  nodes : nat -> Writable;
  m_fileIDs : gmap nat Z;
  m_openFileIDs : gset Z;
  cells : gmap nat Cell;
  trace : list H5Call }.

(** [openPMD::Operation] *)
Inductive Operation :=
  | CREATE_FILE | CREATE_PATH | CREATE_DATASET | EXTEND_DATASET
  | OPEN_FILE | OPEN_PATH | OPEN_DATASET
  | DELETE_FILE | DELETE_PATH | DELETE_DATASET | DELETE_ATT
  | WRITE_DATASET | WRITE_ATT | READ_DATASET | READ_ATT
  | LIST_PATHS | LIST_DATASETS | LIST_ATTS.

(** [openPMD::IOTask] *)
Record IOTask := mkIOTask {
  task_writable : nat;
  operation : Operation;
  parameter : ArgumentMap }.

(** [openPMD::AbstractIOHandler]: [directory], [accessType] and the task
    queue [m_work] (a [std::queue]; its front is the head of the list). *)
Record AbstractIOHandler := mkHandler {
  directory : string;
  accessType : AccessType;
  m_work : list IOTask }.

(* ------------------------------------------------------------------ *)
(** ** The state-and-exception monad *)

Definition M (A : Type) : Type := World -> Res A * World.

#[global] Instance M_ret : MRet M := fun A a s => (Ok a, s).
#[global] Instance M_bind : MBind M := fun A B k m s =>
  match m s with
  | (Ok a, s') => k a s'
  | (Throw e, s') => (Throw e, s')
  end.

Definition throw {A} (e : Exn) : M A := fun s => (Throw e, s).
Definition lift {A} (r : Res A) : M A := fun s => (r, s).
Definition gets {A} (f : World -> A) : M A := fun s => (Ok (f s), s).
Definition modify (f : World -> World) : M unit := fun s => (Ok tt, f s).

(** Dereference of a [Writable*]. *)
Definition deref (w : nat) : M Writable := gets (fun s => nodes s w).

Definition set_nodes (f : nat -> Writable) (s : World) : World :=
  mkWorld f (m_fileIDs s) (m_openFileIDs s) (cells s) (trace s).
Definition set_fileIDs (m : gmap nat Z) (s : World) : World :=
  mkWorld (nodes s) m (m_openFileIDs s) (cells s) (trace s).
Definition set_openFileIDs (o : gset Z) (s : World) : World :=
  mkWorld (nodes s) (m_fileIDs s) o (cells s) (trace s).
Definition set_cells (c : gmap nat Cell) (s : World) : World :=
  mkWorld (nodes s) (m_fileIDs s) (m_openFileIDs s) c (trace s).

(** Assignment through the pointer: [writable->written = b;
    writable->abstractFilePosition = p;]. *)
Definition set_status (w : nat) (b : bool) (p : option string) : M unit :=
  modify (fun s =>
    set_nodes (fun v => if decide (v = w)
                        then let n := nodes s w in
                             mkWritable b (dirty n) p (parent n)
                        else nodes s v) s).

(** A native call: appended to the trace. *)
Definition call (c : H5Call) : M unit :=
  modify (fun s => mkWorld (nodes s) (m_fileIDs s) (m_openFileIDs s) (cells s)
                           (trace s ++ [c])).

(** A query of the native library, answered from the trace so far. *)
Definition ask {A} (q : list H5Call -> A) : M A := gets (fun s => q (trace s)).

(** [m_fileIDs.find(w)], [m_fileIDs[w] = id], [m_fileIDs.erase(w)]. *)
Definition find_fid (w : nat) : M (option Z) := gets (fun s => m_fileIDs s !! w).
Definition put_fid (w : nat) (id : Z) : M unit :=
  modify (fun s => set_fileIDs (<[w:=id]> (m_fileIDs s)) s).
Definition erase_fid (w : nat) : M unit :=
  modify (fun s => set_fileIDs (delete w (m_fileIDs s)) s).
Definition insert_open (id : Z) : M unit :=
  modify (fun s => set_openFileIDs ({[id]} ∪ m_openFileIDs s) s).
Definition erase_open (id : Z) : M unit :=
  modify (fun s => set_openFileIDs (m_openFileIDs s ∖ {[id]}) s).
Definition put_cell (c : nat) (v : Cell) : M unit :=
  modify (fun s => set_cells (<[c:=v]> (cells s)) s).
Definition read_cell (c : nat) : M (option Cell) := gets (fun s => cells s !! c).

(** [parameters.at(k).get< T >()] for the parameter types the handlers
    read; a missing key raises [std::out_of_range], a wrong alternative a
    failed variant read-out. *)
Definition at_ (ps : ArgumentMap) (k : string) : M ParameterArgument :=
  match ps !! k with Some v => mret v | None => throw (OutOfRange k) end.
Definition get_string (ps : ArgumentMap) (k : string) : M string :=
  v ← at_ ps k; match v with PA_string x => mret x | _ => throw BadGet end.
Definition get_datatype (ps : ArgumentMap) (k : string) : M Datatype :=
  v ← at_ ps k; match v with PA_datatype x => mret x | _ => throw BadGet end.
Definition get_extent (ps : ArgumentMap) (k : string) : M (list Z) :=
  v ← at_ ps k; match v with PA_extent x => mret x | _ => throw BadGet end.
Definition get_resource (ps : ArgumentMap) (k : string) : M resource :=
  v ← at_ ps k; match v with PA_resource x => mret x | _ => throw BadGet end.
Definition get_shared_data (ps : ArgumentMap) (k : string) : M nat :=
  v ← at_ ps k; match v with PA_shared_data x => mret x | _ => throw BadGet end.
Definition get_raw_data (ps : ArgumentMap) (k : string) : M nat :=
  v ← at_ ps k; match v with PA_raw_data x => mret x | _ => throw BadGet end.
Definition get_dtype_cell (ps : ArgumentMap) (k : string) : M nat :=
  v ← at_ ps k; match v with PA_dtype_cell x => mret x | _ => throw BadGet end.
Definition get_extent_cell (ps : ArgumentMap) (k : string) : M nat :=
  v ← at_ ps k; match v with PA_extent_cell x => mret x | _ => throw BadGet end.
Definition get_resource_cell (ps : ArgumentMap) (k : string) : M nat :=
  v ← at_ ps k; match v with PA_resource_cell x => mret x | _ => throw BadGet end.
Definition get_strings_cell (ps : ArgumentMap) (k : string) : M nat :=
  v ← at_ ps k; match v with PA_strings_cell x => mret x | _ => throw BadGet end.

(* ------------------------------------------------------------------ *)
(** ** String helpers of [openPMD/auxiliary/StringManip.hpp] *)

(** Modelled from the spec: [auxiliary::starts_with] (the string helpers
    are not among the sources). *)
Definition starts_with (s p : string) : bool := String.prefix p s.

(** Modelled from the spec: [auxiliary::ends_with]. *)
Definition ends_with (s suf : string) : bool :=
  let n := String.length s in
  let m := String.length suf in
  (Nat.leb m n && String.eqb (substring (n - m) m s) suf)%bool.

(** Modelled from the spec: [auxiliary::replace_first] replaces the first
    occurrence of [target]. *)
Definition replace_first (s target repl : string) : string :=
  match String.index 0 target s with
  | Some i =>
      substring 0 i s +:+ repl +:+
      substring (i + String.length target)
                (String.length s - i - String.length target) s
  | None => s
  end.

(** Modelled from the spec: [auxiliary::split] cuts at every character of
    [delim] and drops empty tokens. *)
Fixpoint char_in (c : ascii) (d : string) : bool :=
  match d with
  | EmptyString => false
  | String c' d' => if Ascii.eqb c c' then true else char_in c d'
  end.
Fixpoint split_go (delim : string) (s cur : string) : list string :=
  match s with
  | EmptyString => if String.eqb cur "" then [] else [cur]
  | String c rest =>
      if char_in c delim
      then (if String.eqb cur "" then [] else [cur]) ++ split_go delim rest ""
      else split_go delim rest (cur +:+ String c "")
  end.
Definition split (s delim : string) : list string := split_go delim s "".

(** [std::stoi] (through [strtol], base 10): leading white space
    ([isspace]: blank, tab, newline, vertical tab, form feed, carriage
    return), an optional sign and at least one decimal digit, otherwise
    [std::invalid_argument]; a value outside the range of a 32-bit [int]
    raises [std::out_of_range]. *)
Fixpoint digits (s : string) (acc : Z) (seen : bool) : option Z :=
  match s with
  | String c rest =>
      let k := Z.of_nat (nat_of_ascii c) - 48 in
      if ((0 <=? k) && (k <=? 9))%bool then digits rest (10 * acc + k) true
      else if seen then Some acc else None
  | EmptyString => if seen then Some acc else None
  end.
Definition is_space (c : ascii) : bool :=
  match c with
  | " " | "009" | "010" | "011" | "012" | "013" => true
  | _ => false
  end%char.
Definition int_range (z : Z) : Res Z :=
  if ((-2147483648 <=? z) && (z <=? 2147483647))%bool then Ok z
  else Throw (OutOfRange "stoi").
Fixpoint stoi (s : string) : Res Z :=
  match s with
  | String c rest =>
      if is_space c then stoi rest else
      match c with
      | "-"%char =>
          match digits rest 0 false with
          | Some z => int_range (- z) | None => Throw (InvalidArgument "stoi") end
      | "+"%char =>
          match digits rest 0 false with
          | Some z => int_range z | None => Throw (InvalidArgument "stoi") end
      | _ =>
          match digits s 0 false with
          | Some z => int_range z | None => Throw (InvalidArgument "stoi") end
      end
  | EmptyString => Throw (InvalidArgument "stoi")
  end.

(** The path normalisation repeated in the handlers:
    [if( starts_with(p, "/") ) p = replace_first(p, "/", "");
     if( !ends_with(p, "/") ) p += '/';]. *)
Definition sanitize (p : string) : string :=
  let p := if starts_with p "/" then replace_first p "/" "" else p in
  if ends_with p "/" then p else p +:+ "/".

(** Modelled from the spec: [concrete_h5_file_position] of
    [HDF5Auxiliary.cpp] (not among the sources) resolves the storage
    location by walking the position tokens up the parent chain: starting
    at the parent when the node has no token of its own, it concatenates
    the locations from the root down.  A null pointer gives "". *)
Fixpoint chain (fuel : nat) (ns : nat -> Writable) (w : option nat) : string :=
  match fuel, w with
  | O, _ | _, None => ""
  | S f, Some v =>
      let n := ns v in
      chain f ns (parent n) +:+ default "" (abstractFilePosition n)
  end.
Definition concrete_h5_file_position (ns : nat -> Writable) (w : option nat) : string :=
  match w with
  | None => ""
  | Some v =>
      match abstractFilePosition (ns v) with
      | Some _ => chain 256 ns w
      | None => chain 256 ns (parent (ns v))
      end
  end.

Definition pos_of (w : option nat) : M string :=
  gets (fun s => concrete_h5_file_position (nodes s) w).

(** [res->second]: an [end()] iterator has no id; [-1] stands for the
    invalid id the native calls then receive. *)
Definition deref_fid (o : option Z) : Z := default (-1) o.

(** [m_fileIDs.find(p)] for a pointer [p] that may be null. *)
Definition find_ptr (p : option nat) : M (option Z) :=
  match p with Some v => find_fid v | None => mret None end.

(** [auto res = m_fileIDs.find(writable);
     if( res == m_fileIDs.end() ) res = m_fileIDs.find(writable->parent);] *)
Definition find_or_parent (w : nat) : M (option Z) :=
  r ← find_fid w;
  match r with
  | Some _ => mret r
  | None => n ← deref w; find_ptr (parent n)
  end.

(** [m_fileIDs[writable]] as an rvalue: inserts [0] when absent. *)
Definition index_fid (w : nat) : M Z :=
  r ← find_fid w;
  match r with
  | Some id => mret id
  | None => put_fid w 0;; mret 0
  end.

Fixpoint iter_ {A} (f : A -> M unit) (l : list A) : M unit :=
  match l with [] => mret tt | x :: l' => f x;; iter_ f l' end.

Definition with_h5 (name : string) : string :=
  if ends_with name ".h5" then name else name +:+ ".h5".

(* ------------------------------------------------------------------ *)
(** ** The handlers of [HDF5IOHandlerImpl] *)

Section Handlers.
Context (N : Native) (h : AbstractIOHandler).

(** [boost::filesystem::exists(p)], which throws [filesystem_error] when
    the status of [p] cannot be determined. *)
Definition fs_exists_ (p : string) : M bool :=
  r ← ask (fun t => fs_exists N t p);
  match r with Some b => mret b | None => throw (FilesystemError p) end.

(** A call of [boost::filesystem] on [p] that throws [filesystem_error]
    when it fails. *)
Definition fs_call (c : H5Call) (p : string) : M unit :=
  bad ← ask (fun t => fs_fails N t c);
  call c;;
  if (bad : bool) then throw (FilesystemError p) else mret tt.

(** [getH5DataType(a)]: raises for an attribute it cannot map; the HDF5
    type handle it returns is not a call of the model. *)
Definition getH5DataType (a : Attribute) : M unit :=
  if h5_datatype_ok N a then mret tt else throw (DatatypeUnsupported (att_dtype a)).

(** [HDF5IOHandlerImpl::createFile] *)
Definition createFile (w : nat) (ps : ArgumentMap) : M unit :=
  n ← deref w;
  if written n then mret tt else
  ex ← fs_exists_ (directory h);
  (if (ex : bool) then mret tt
   else fs_call (C_create_directories (directory h)) (directory h));;
  nm ← get_string ps "name";
  let name := with_h5 (directory h +:+ nm) in
  id ← ask (fun t => fcreate_id N t name);
  call (C_Fcreate name);;
  set_status w true (Some "/");;
  put_fid w id;;
  insert_open id.

(** [HDF5IOHandlerImpl::createPath]: one [H5Gcreate] per folder, then the
    opened groups are closed (the stack holds the start group and one group
    per folder). *)
Definition createPath (w : nat) (ps : ArgumentMap) : M unit :=
  n ← deref w;
  if written n then mret tt else
  p ← get_string ps "path";
  let path := sanitize p in
  let position := match parent n with Some q => q | None => w end in
  res ← find_fid position;
  loc ← pos_of (Some position);
  call (C_Gopen (deref_fid res) loc);;
  let folders := split path "/" in
  iter_ (fun f => call (C_Gcreate f)) folders;;
  iter_ (fun _ => call C_Gclose) (tt :: map (fun _ => tt) folders);;
  set_status w true (Some path);;
  put_fid w (deref_fid res).

Definition is_deflate (format : string) : bool :=
  (String.eqb format "zlib" || String.eqb format "gzip" || String.eqb format "deflate")%bool.

(** [HDF5IOHandlerImpl::createDataset]; [args[0]] of an empty split is read
    as "" (the C++ access is out of bounds).  [Attribute a(0)] holds the
    [int] [0]; its tag is then set to [d]. *)
Definition createDataset (w : nat) (ps : ArgumentMap) : M unit :=
  n ← deref w;
  if written n then mret tt else
  nm ← get_string ps "name";
  let name1 := if starts_with nm "/" then replace_first nm "/" "" else nm in
  let name := if ends_with name1 "/" then replace_first name1 "/" "" else name1 in
  res ← find_or_parent w;
  loc ← pos_of (Some w);
  call (C_Gopen (deref_fid res) loc);;
  d0 ← get_datatype ps "dtype";
  let d := if decide (d0 = UNDEFINED) then BOOL else d0 in
  dims ← get_extent ps "extent";
  chunk ← get_extent ps "chunkSize";
  compression ← get_string ps "compression";
  deflate ← (if String.eqb compression "" then mret None else
             let args := split compression ":" in
             if (is_deflate (List.nth 0 args "") && Nat.eqb (List.length args) 2)%bool
             then lvl ← lift (stoi (List.nth 1 args "")); mret (Some lvl)
             else mret None);
  _ ← get_string ps "transform";
  getH5DataType (mkAttribute (R_INT32 0) d);;
  call (C_Dcreate name d dims chunk deflate);;
  call C_Dclose;;
  call C_Gclose;;
  set_status w true (Some name);;
  put_fid w (deref_fid res).

(** [HDF5IOHandlerImpl::extendDataset] *)
Definition extendDataset (w : nat) (ps : ArgumentMap) : M unit :=
  n ← deref w;
  if negb (written n)
  then throw (RuntimeError "Extending an unwritten Dataset is not possible.")
  else
  res ← find_ptr (parent n);
  loc ← pos_of (parent n);
  call (C_Gopen (deref_fid res) loc);;
  nm ← get_string ps "name";
  call (C_Dopen_sub (sanitize nm));;
  size ← get_extent ps "extent";
  call (C_Dset_extent size);;
  call C_Dclose;;
  call C_Gclose.

(** [HDF5IOHandlerImpl::openFile] (the [else] branch of the access type
    test is unreachable: the three access types are covered). *)
Definition openFile (w : nat) (ps : ArgumentMap) : M unit :=
  ex ← fs_exists_ (directory h);
  if negb ex
  then throw (NoSuchFile ("Supplied directory is not valid: " +:+ directory h))
  else
  nm ← get_string ps "name";
  let name := with_h5 (directory h +:+ nm) in
  let flags := match accessType h with
               | READ_ONLY => H5F_ACC_RDONLY
               | READ_WRITE | CREATE => H5F_ACC_RDWR
               end in
  file_id ← ask (fun t => fopen_id N t name);
  call (C_Fopen name flags);;
  if file_id <? 0 then throw (NoSuchFile ("Failed to open HDF5 file " +:+ name)) else
  set_status w true (Some "/");;
  erase_fid w;;
  put_fid w file_id;;
  insert_open file_id.

(** [HDF5IOHandlerImpl::openPath] *)
Definition openPath (w : nat) (ps : ArgumentMap) : M unit :=
  n ← deref w;
  res ← find_ptr (parent n);
  loc ← pos_of (parent n);
  call (C_Gopen (deref_fid res) loc);;
  p ← get_string ps "path";
  let path := sanitize p in
  call (C_Gopen_sub path);;
  call C_Gclose;;
  call C_Gclose;;
  set_status w true (Some path);;
  erase_fid w;;
  put_fid w (deref_fid res).

(** The datatype [openDataset] derives from the stored type. *)
Definition dataset_dtype (ty : H5Type) : Res Datatype :=
  match ty with
  | HT_native d =>
      match d with
      | CHAR | UCHAR | INT16 | INT32 | INT64 | FLOAT | DOUBLE
      | UINT16 | UINT32 | UINT64 => Ok d
      | _ => Throw (RuntimeError "Unknown dataset type")
      end
  | HT_string => Ok STRING
  | _ => Throw (RuntimeError "Unknown dataset type")
  end.

(** [HDF5IOHandlerImpl::openDataset] *)
Definition openDataset (w : nat) (ps : ArgumentMap) : M unit :=
  n ← deref w;
  res ← find_ptr (parent n);
  loc ← pos_of (parent n);
  call (C_Gopen (deref_fid res) loc);;
  nm ← get_string ps "name";
  let name := sanitize nm in
  call (C_Dopen_sub name);;
  ' (cls, ty, dims) ← ask (fun t => dset_info N t (loc +:+ name));
  d ← (match cls with
       | H5S_SIMPLE | H5S_SCALAR => lift (dataset_dtype ty)
       | H5S_NULL => throw (RuntimeError "Unsupported dataset class")
       end);
  c1 ← get_dtype_cell ps "dtype";
  put_cell c1 (CDatatype d);;
  c2 ← get_extent_cell ps "extent";
  put_cell c2 (CExtent dims);;
  call C_Dclose;;
  call C_Gclose;;
  set_status w true (Some name);;
  put_fid w (deref_fid res).

(** [HDF5IOHandlerImpl::deleteFile] *)
Definition deleteFile (w : nat) (ps : ArgumentMap) : M unit :=
  if decide (accessType h = READ_ONLY)
  then throw (RuntimeError "Deleting a file opened as read only is not possible.")
  else
  n ← deref w;
  if negb (written n) then mret tt else
  file_id ← index_fid w;
  call (C_Fclose file_id);;
  nm ← get_string ps "name";
  let name := with_h5 (directory h +:+ nm) in
  ex ← fs_exists_ name;
  if negb ex then throw (RuntimeError ("File does not exist: " +:+ name)) else
  fs_call (C_remove name) name;;
  set_status w false None;;
  erase_open file_id;;
  erase_fid w.

(** [HDF5IOHandlerImpl::deletePath] *)
Definition deletePath (w : nat) (ps : ArgumentMap) : M unit :=
  if decide (accessType h = READ_ONLY)
  then throw (RuntimeError "Deleting a path in a file opened as read only is not possible.")
  else
  n ← deref w;
  if negb (written n) then mret tt else
  p ← get_string ps "path";
  let path := sanitize p in
  res ← find_or_parent w;
  loc ← pos_of (parent n);
  call (C_Gopen (deref_fid res) loc);;
  call (C_Ldelete (path +:+ default "" (abstractFilePosition n)));;
  call C_Gclose;;
  set_status w false None;;
  erase_fid w.

(** [HDF5IOHandlerImpl::deleteDataset] *)
Definition deleteDataset (w : nat) (ps : ArgumentMap) : M unit :=
  if decide (accessType h = READ_ONLY)
  then throw (RuntimeError "Deleting a path in a file opened as read only is not possible.")
  else
  n ← deref w;
  if negb (written n) then mret tt else
  nm ← get_string ps "name";
  let name := sanitize nm in
  res ← find_or_parent w;
  loc ← pos_of (parent n);
  call (C_Gopen (deref_fid res) loc);;
  call (C_Ldelete (name +:+ default "" (abstractFilePosition n)));;
  call C_Gclose;;
  set_status w false None;;
  erase_fid w.

(** [HDF5IOHandlerImpl::deleteAttribute] *)
Definition deleteAttribute (w : nat) (ps : ArgumentMap) : M unit :=
  if decide (accessType h = READ_ONLY)
  then throw (RuntimeError "Deleting an attribute in a file opened as read only is not possible.")
  else
  n ← deref w;
  if negb (written n) then mret tt else
  name ← get_string ps "name";
  res ← find_or_parent w;
  loc ← pos_of (Some w);
  call (C_Oopen (deref_fid res) loc);;
  call (C_Adelete name);;
  call C_Oclose.

(** The datatypes [readDataset] transfers: the [switch] before [H5Dread]. *)
Definition dataset_transfer_check (d : Datatype) : M unit :=
  match d with
  | DOUBLE | FLOAT | INT16 | INT32 | INT64 | UINT16 | UINT32 | UINT64
  | CHAR | UCHAR | BOOL => mret tt
  | UNDEFINED => throw (RuntimeError "Unknown Attribute datatype")
  | DATATYPE => throw (RuntimeError "Meta-Datatype leaked into IO")
  | _ => throw (RuntimeError "Datatype not implemented in HDF5 IO")
  end.

(** [HDF5IOHandlerImpl::writeDataset]: [getH5DataType] of [Attribute
    a(0)] tagged with the requested datatype, then the [switch] on [a.dtype]
    reaches [H5Dwrite] only for the listed datatypes. *)
Definition writeDataset (w : nat) (ps : ArgumentMap) : M unit :=
  res ← find_or_parent w;
  loc ← pos_of (Some w);
  call (C_Dopen (deref_fid res) loc);;
  start ← get_extent ps "offset";
  block ← get_extent ps "extent";
  data ← get_shared_data ps "data";
  dt ← get_datatype ps "dtype";
  getH5DataType (mkAttribute (R_INT32 0) dt);;
  (match dt with
   | DOUBLE | FLOAT | INT16 | INT32 | INT64 | UINT16 | UINT32 | UINT64
   | CHAR | UCHAR | BOOL => call (C_Dwrite dt data start block)
   | UNDEFINED => throw (RuntimeError "Unknown Attribute datatype")
   | DATATYPE => throw (RuntimeError "Meta-Datatype leaked into IO")
   | _ => throw (RuntimeError "Datatype not implemented in HDF5 IO")
   end);;
  call C_Dclose;;
  put_fid w (deref_fid res).

(** The [switch( dtype )] of [writeAttribute]: the value [att.get< T >()]
    for the requested type [T]; the meta tags raise. *)
Definition attribute_value (dtype : Datatype) (att : Attribute) : M resource :=
  match dtype with
  | UNDEFINED | DATATYPE => throw (RuntimeError "Unknown Attribute datatype")
  | _ => v ← lift (get dtype att); mret (inject dtype v)
  end.

(** [HDF5IOHandlerImpl::writeAttribute]: the stored type is the boolean
    enumeration when [dtype == BOOL] and [getH5DataType(att)] otherwise;
    the attribute is created when [H5Aexists] says it is absent.  Here
    [att] is built from the resource, so its tag is the one of the value it
    holds, and [getH5DataType(att)] is read as the HDF5 type of that tag
    (unlike [Attribute a(0)] of the dataset handlers, whose tag is set
    apart from the [int] it holds). *)
Definition writeAttribute (w : nat) (ps : ArgumentMap) : M unit :=
  res ← find_or_parent w;
  loc ← pos_of (Some w);
  call (C_Oopen (deref_fid res) loc);;
  name ← get_string ps "name";
  r ← get_resource ps "attribute";
  let att := Attribute_of r in
  dtype ← get_datatype ps "dtype";
  let dataType := if decide (dtype = BOOL) then BOOL else att_dtype att in
  ex ← ask (fun t => aexists N t loc name);
  (if (ex : bool) then call (C_Aopen name) else call (C_Acreate name dataType));;
  v ← attribute_value dtype att;
  call (C_Awrite dataType v);;
  call C_Aclose;;
  call C_Oclose;;
  put_fid w (deref_fid res).

(** [HDF5IOHandlerImpl::readDataset]: the [switch] on [a.dtype], then
    [getH5DataType] of [Attribute a(0)] tagged with the requested
    datatype. *)
Definition readDataset (w : nat) (ps : ArgumentMap) : M unit :=
  res ← find_or_parent w;
  loc ← pos_of (Some w);
  call (C_Dopen (deref_fid res) loc);;
  start ← get_extent ps "offset";
  block ← get_extent ps "extent";
  data ← get_raw_data ps "data";
  dt ← get_datatype ps "dtype";
  dataset_transfer_check dt;;
  getH5DataType (mkAttribute (R_INT32 0) dt);;
  call (C_Dread dt data start block);;
  call C_Dclose.

Definition native_attribute_type (d : Datatype) : bool :=
  match d with
  | CHAR | UCHAR | INT16 | INT32 | INT64 | UINT16 | UINT32 | UINT64
  | FLOAT | DOUBLE | LONG_DOUBLE => true
  | _ => false
  end.

(** The decoding branches of [readAttribute]; the decoded value itself is
    the library's ([attr_value]). *)
Definition decode_attribute (loc name : string)
    (cls : SpaceClass) (ty : H5Type) (dims : list Z) : M resource :=
  let read := (v ← ask (fun t => attr_value N t loc name);
               call (C_Aread name);; mret v) in
  let ndims := List.length dims in
  if (match cls with H5S_SCALAR => true | _ => false end
      || (match cls with H5S_SIMPLE => true | _ => false end
          && Nat.eqb ndims 1 && bool_decide (List.hd 0 dims = 1)))%bool
  then
    match ty with
    | HT_native d =>
        if native_attribute_type d then read
        else throw (RuntimeError "Unsupported scalar attribute type")
    | HT_string => read
    | HT_enum ms =>
        if bool_decide (ms = ["TRUE"; "FALSE"]%string) then read
        else throw (UnsupportedData "Unsupported attribute enumeration")
    | HT_compound => throw (UnsupportedData "Compound attribute type not supported")
    | HT_other => throw (RuntimeError "Unsupported scalar attribute type")
    end
  else
    match cls with
    | H5S_SIMPLE =>
        if negb (Nat.eqb ndims 1)
        then throw (RuntimeError "Unsupported attribute (array with ndims != 1)")
        else
          match ty with
          | HT_native d =>
              if native_attribute_type d then read
              else throw (RuntimeError "Unsupported simple attribute type")
          | HT_string => read
          | _ => throw (RuntimeError "Unsupported simple attribute type")
          end
    | _ => throw (RuntimeError "Unsupported attribute class")
    end.

(** [HDF5IOHandlerImpl::readAttribute] *)
Definition readAttribute (w : nat) (ps : ArgumentMap) : M unit :=
  res ← find_or_parent w;
  loc ← pos_of (Some w);
  call (C_Oopen (deref_fid res) loc);;
  attr_name ← get_string ps "name";
  call (C_Aopen attr_name);;
  ' (cls, ty, dims) ← ask (fun t => attr_info N t loc attr_name);
  v ← decode_attribute loc attr_name cls ty dims;
  c1 ← get_dtype_cell ps "dtype";
  put_cell c1 (CDatatype (dtype_of v));;
  c2 ← get_resource_cell ps "resource";
  put_cell c2 (CResource v);;
  call C_Aclose;;
  call C_Oclose.

(** [paths->push_back(...)] on the shared vector of an output cell. *)
Definition push_strings (c : nat) (l : list string) : M unit :=
  old ← read_cell c;
  let prev := match old with Some (CStrings p) => p | _ => [] end in
  put_cell c (CStrings (prev ++ l)).

Definition links_of (k : LinkKind) (ls : list (string * LinkKind)) : list string :=
  map fst (List.filter (fun e => match e.2, k with
                                 | H5G_GROUP, H5G_GROUP | H5G_DATASET, H5G_DATASET => true
                                 | _, _ => false end) ls).

(** [HDF5IOHandlerImpl::listPaths] *)
Definition listPaths (w : nat) (ps : ArgumentMap) : M unit :=
  res ← find_or_parent w;
  loc ← pos_of (Some w);
  call (C_Gopen (deref_fid res) loc);;
  ls ← ask (fun t => group_links N t loc);
  c ← get_strings_cell ps "paths";
  push_strings c (links_of H5G_GROUP ls);;
  call C_Gclose.

(** [HDF5IOHandlerImpl::listDatasets] *)
Definition listDatasets (w : nat) (ps : ArgumentMap) : M unit :=
  res ← find_or_parent w;
  loc ← pos_of (Some w);
  call (C_Gopen (deref_fid res) loc);;
  ls ← ask (fun t => group_links N t loc);
  c ← get_strings_cell ps "datasets";
  push_strings c (links_of H5G_DATASET ls);;
  call C_Gclose.

(** [HDF5IOHandlerImpl::listAttributes] *)
Definition listAttributes (w : nat) (ps : ArgumentMap) : M unit :=
  res ← find_or_parent w;
  loc ← pos_of (Some w);
  call (C_Oopen (deref_fid res) loc);;
  names ← ask (fun t => attr_names N t loc);
  c ← get_strings_cell ps "attributes";
  push_strings c names;;
  call C_Oclose.

(** The [switch( i.operation )] of [flush]. *)
Definition dispatch (i : IOTask) : M unit :=
  let w := task_writable i in
  let ps := parameter i in
  match operation i with
  | CREATE_FILE => createFile w ps
  | CREATE_PATH => createPath w ps
  | CREATE_DATASET => createDataset w ps
  | EXTEND_DATASET => extendDataset w ps
  | OPEN_FILE => openFile w ps
  | OPEN_PATH => openPath w ps
  | OPEN_DATASET => openDataset w ps
  | DELETE_FILE => deleteFile w ps
  | DELETE_PATH => deletePath w ps
  | DELETE_DATASET => deleteDataset w ps
  | DELETE_ATT => deleteAttribute w ps
  | WRITE_DATASET => writeDataset w ps
  | WRITE_ATT => writeAttribute w ps
  | READ_DATASET => readDataset w ps
  | READ_ATT => readAttribute w ps
  | LIST_PATHS => listPaths w ps
  | LIST_DATASETS => listDatasets w ps
  | LIST_ATTS => listAttributes w ps
  end.

End Handlers.

(* ------------------------------------------------------------------ *)
(** ** The queue drain [HDF5IOHandlerImpl::flush] *)

(** [while( !m_work.empty() )]: the front task is dispatched; on success it
    is popped; an [unsupported_data_error] pops it and is rethrown; any other
    exception leaves the handler with the queue as it is. *)
Fixpoint flush_loop (N : Native) (h : AbstractIOHandler) (q : list IOTask) (s : World)
    : Res unit * list IOTask * World :=
  match q with
  | [] => (Ok tt, [], s)
  | i :: rest =>
      match dispatch N h i s with
      | (Ok _, s') => flush_loop N h rest s'
      | (Throw (UnsupportedData m), s') => (Throw (UnsupportedData m), rest, s')
      | (Throw e, s') => (Throw e, q, s')
      end
  end.

Definition flush (N : Native) (h : AbstractIOHandler) (s : World)
    : Res unit * AbstractIOHandler * World :=
  let '(r, q, s') := flush_loop N h (m_work h) s in
  (r, mkHandler (directory h) (accessType h) q, s').

(* ------------------------------------------------------------------ *)
(** ** Concrete inputs *)

(** A file system and HDF5 library in which every path exists and no
    file-system call fails, ids count the calls made so far, no attribute
    exists yet, datasets are 1-d doubles, attributes are compound, and
    [getH5DataType] fails on [Attribute a(0)] exactly for the tags
    [STRING], [DATATYPE] and [UNDEFINED]. *)
Definition native0 : Native :=
  mkNative (fun _ _ => Some true)
           (fun t _ => Z.of_nat (List.length t) + 100)
           (fun t _ => Z.of_nat (List.length t) + 100)
           (fun _ _ _ => false)
           (fun _ _ => (H5S_SIMPLE, HT_native DOUBLE, [4]))
           (fun _ _ _ => (H5S_SCALAR, HT_compound, []))
           (fun _ _ _ => R_DOUBLE 0)
           (fun _ _ => [])
           (fun _ _ => [])
           (fun _ _ => false)
           (fun a => negb (bool_decide (att_dtype a = STRING)) &&
                     negb (bool_decide (att_dtype a = DATATYPE)) &&
                     negb (bool_decide (att_dtype a = UNDEFINED)))%bool.

Definition fresh : Writable := mkWritable false false None None.

(** Node 0 is a file, node 1 a dataset below it; nothing written yet. *)
Definition world0 : World :=
  mkWorld (fun v => match v with
                    | O => fresh
                    | _ => mkWritable false false None (Some O)
                    end)
          ∅ ∅ ∅ [].

Definition rw_handler (q : list IOTask) : AbstractIOHandler := mkHandler "out/" READ_WRITE q.
Definition ro_handler (q : list IOTask) : AbstractIOHandler := mkHandler "out/" READ_ONLY q.

Definition create_file_task : IOTask :=
  mkIOTask 0 CREATE_FILE {[ "name" := PA_string "run" ]}.
Definition create_dataset_task : IOTask :=
  mkIOTask 1 CREATE_DATASET
    (<[ "name" := PA_string "x" ]> (<[ "dtype" := PA_datatype DOUBLE ]>
     (<[ "extent" := PA_extent [4] ]> (<[ "chunkSize" := PA_extent [4] ]>
     (<[ "compression" := PA_string "" ]> {[ "transform" := PA_string "" ]}))))).
Definition write_dataset_task (off : Z) : IOTask :=
  mkIOTask 1 WRITE_DATASET
    (<[ "offset" := PA_extent [off] ]> (<[ "extent" := PA_extent [2] ]>
     (<[ "data" := PA_shared_data 7 ]> {[ "dtype" := PA_datatype DOUBLE ]}))).
Definition extend_task : IOTask :=
  mkIOTask 1 EXTEND_DATASET (<[ "name" := PA_string "x" ]> {[ "extent" := PA_extent [8] ]}).

Definition node0_written : World :=
  mkWorld (fun v => match v with
                    | O => mkWritable true false (Some "/") None
                    | _ => mkWritable false false None (Some O)
                    end)
          {[ 0%nat := 100 ]} {[ 100 ]} ∅ [].

(* ------------------------------------------------------------------ *)
(** ** Auxiliary definitions of the proofs *)

(** [keeps P m]: whatever the state, running [m] only appends native calls
    satisfying [P] to the trace. *)
Definition keeps (P : H5Call -> Prop) {A} (m : M A) : Prop :=
  forall s, exists new, trace (m s).2 = trace s ++ new /\ Forall P new.

(** The datatype tag a native call stores: dataset creation, dataset
    write, attribute creation and attribute write. *)
Definition stored_dtype (c : H5Call) : option Datatype :=
  match c with
  | C_Dcreate _ d _ _ _ | C_Dwrite d _ _ _ | C_Acreate _ d | C_Awrite d _ => Some d
  | _ => None
  end.

Definition no_undefined (c : H5Call) : Prop := stored_dtype c <> Some UNDEFINED.

(** The tasks of a list dispatched one after the other, in list order,
    stopping at the first exception. *)
Fixpoint run_all (N : Native) (h : AbstractIOHandler) (q : list IOTask) : M unit :=
  match q with
  | [] => mret tt
  | i :: q' => dispatch N h i;; run_all N h q'
  end.

Definition with_work (h : AbstractIOHandler) (q : list IOTask) : AbstractIOHandler :=
  mkHandler (directory h) (accessType h) q.

Definition is_unsupported (e : Exn) : bool :=
  match e with UnsupportedData _ => true | _ => false end.

(** The example of the spec: creating dataset [x], then writing at offsets
    0 and 2; the native calls appear in that order. *)
Definition fifo_queue : list IOTask :=
  [create_file_task; create_dataset_task; write_dataset_task 0; write_dataset_task 2].

(** A task whose handler raises [unsupported_data_error]: reading the
    (compound) attribute "a" of node 0. *)
Definition read_att_task : IOTask :=
  mkIOTask 0 READ_ATT (<[ "name" := PA_string "a" ]>
                       (<[ "dtype" := PA_dtype_cell 1 ]> {[ "resource" := PA_resource_cell 2 ]})).

(** The state [s] with the [written] flag of node [w] set to [b]. *)
Definition with_written (w : nat) (b : bool) (s : World) : World :=
  set_nodes (fun v => if decide (v = w)
                      then let n := nodes s w in
                           mkWritable b (dirty n) (abstractFilePosition n) (parent n)
                      else nodes s v) s.

(** Two states that agree on everything the open handlers read: the tree
    layout (parents and position tokens), the file ids and the call trace.
    They may differ in the [written] and [dirty] flags and in the cells. *)
Definition same_layout (s t : World) : Prop :=
  (forall v, parent (nodes t v) = parent (nodes s v)) /\
  (forall v, abstractFilePosition (nodes t v) = abstractFilePosition (nodes s v)) /\
  m_fileIDs t = m_fileIDs s /\ m_openFileIDs t = m_openFileIDs s /\
  trace t = trace s.

(** [m1] run from [s] and [m2] run from a state of the same layout give the
    same result and again states of the same layout. *)
Definition sim2 {A} (m1 m2 : M A) : Prop :=
  forall s t, same_layout s t ->
    fst (m2 t) = fst (m1 s) /\ same_layout (m1 s).2 (m2 t).2.

(** The datatypes [writeDataset] and [readDataset] hand to [H5Dwrite] and
    [H5Dread]: the accepted cases of their [switch]. *)
Definition transfer_type (d : Datatype) : bool :=
  match d with
  | DOUBLE | FLOAT | INT16 | INT32 | INT64 | UINT16 | UINT32 | UINT64
  | CHAR | UCHAR | BOOL => true
  | _ => false
  end.

(** A native dataset transfer carries one of those datatypes. *)
Definition transfer_ok (c : H5Call) : Prop :=
  match c with
  | C_Dwrite d _ _ _ | C_Dread d _ _ _ => transfer_type d = true
  | _ => True
  end.

(** A native call that is not one of the [H5?close] calls. *)
Definition not_close (c : H5Call) : Prop :=
  match c with
  | C_Fclose _ | C_Gclose | C_Dclose | C_Oclose | C_Aclose => False
  | _ => True
  end.

(** [errs_keep P m]: whenever [m] raises, the native calls it made all
    satisfy [P]. *)
Definition errs_keep (P : H5Call -> Prop) {A} (m : M A) : Prop :=
  forall s e, fst (m s) = Throw e ->
  exists new, trace (m s).2 = trace s ++ new /\ Forall P new.

(** The loop [while( !m_openFileIDs.empty() )] of
    [HDF5IOHandlerImpl::~HDF5IOHandlerImpl]: [H5Fclose] on the element at
    [begin()], which is then erased.  The container type of
    [m_openFileIDs] is declared outside the sources, so the element
    [begin()] designates is a parameter [begin_] of the model; [fuel]
    bounds the iterations by the size of the set.  The [H5Tclose] of the
    boolean enumeration type is not a call of the model, and both
    [H5Pclose] branches are dead: the two property lists are [H5P_DEFAULT]
    from the constructor on and never assigned. *)
Fixpoint close_open_files (begin_ : gset Z -> Z) (fuel : nat) : M unit :=
  match fuel with
  | O => mret tt
  | S fuel' =>
      o ← gets m_openFileIDs;
      if decide (o = ∅) then mret tt else
      let file := begin_ o in
      call (C_Fclose file);; erase_open file;; close_open_files begin_ fuel'
  end.

(** [HDF5IOHandlerImpl::~HDF5IOHandlerImpl] *)
Definition destructor (begin_ : gset Z -> Z) : M unit :=
  o ← gets m_openFileIDs;
  close_open_files begin_ (size o).

(** [begin_] designates an element of every non-empty set. *)
Definition begin_in (begin_ : gset Z -> Z) : Prop :=
  forall o : gset Z, o <> ∅ -> begin_ o ∈ o.

(** A [begin()] that designates the smallest element. *)
Definition begin_min (o : gset Z) : Z := List.hd 0 (merge_sort Z.le (elements o)).

(** A file system in which nothing exists (and no call fails), [H5Fopen] fails, every
    attribute exists and is a scalar 32-bit integer, datasets are scalar
    strings, and every group holds one group, one dataset and one
    attribute. *)
Definition native_missing : Native :=
  mkNative (fun _ _ => Some false)
           (fun _ _ => -1)
           (fun _ _ => -1)
           (fun _ _ _ => true)
           (fun _ _ => (H5S_SCALAR, HT_string, []))
           (fun _ _ _ => (H5S_SCALAR, HT_native INT32, []))
           (fun _ _ _ => R_INT32 7)
           (fun _ _ => [("g", H5G_GROUP); ("d", H5G_DATASET)])
           (fun _ _ => ["unit"])
           (fun _ _ => false)
           (fun _ => true).

(** Node 0 is an open file, node 1 a written group "grp/" below it. *)
Definition group1_written : World :=
  mkWorld (fun v => match v with
                    | O => mkWritable true false (Some "/") None
                    | _ => mkWritable true false (Some "grp/") (Some O)
                    end)
          {[ 0%nat := 100 ]} {[ 100 ]} ∅ [].


(** A file system whose [exists] throws on every path. *)
Definition native_fs_broken : Native :=
  mkNative (fun _ _ => None)
           (fcreate_id native0) (fopen_id native0) (aexists native0) (dset_info native0)
           (attr_info native0) (attr_value native0) (group_links native0) (attr_names native0)
           (fs_fails native0) (h5_datatype_ok native0).

(* ------------------------------------------------------------------ *)
(** ** Proof tools *)

(** Unfold the monad and its primitive operations. *)
Ltac munfold :=
  unfold mbind, M_bind, mret, M_ret, throw, lift, gets, modify, deref, ask,
    call, find_fid, put_fid, erase_fid, insert_open, erase_open, put_cell,
    read_cell, set_status, pos_of, find_ptr, find_or_parent, index_fid,
    at_, get_string, get_datatype, get_extent, get_resource,
    get_shared_data, get_raw_data, get_dtype_cell, get_extent_cell,
    get_resource_cell, get_strings_cell, fs_exists_, fs_call,
    getH5DataType in *.

(* ------------------------------------------------------------------ *)
(** ** C2: CREATE_* on a written node *)

(** C2: calling [createFile], [createPath] or [createDataset] on a node
    whose [written] flag is already set returns normally and changes
    nothing: no native call is made (the trace is unchanged) and the
    node, its position token and the handler's maps are as before. *)
Theorem create_written_noop (N : Native) (h : AbstractIOHandler) (w : nat)
    (ps : ArgumentMap) (s : World) :
  written (nodes s w) = true ->
  createFile N h w ps s = (Ok tt, s) /\
  createPath w ps s = (Ok tt, s) /\
  createDataset N w ps s = (Ok tt, s).
Proof.
  intros Hw.
  unfold createFile, createPath, createDataset; munfold; simpl.
  rewrite Hw; repeat split.
Qed.

Lemma create_written_noop_witness :
  written (nodes node0_written 0) = true /\
  createFile native0 (rw_handler []) 0 {[ "name" := PA_string "run" ]} node0_written
    = (Ok tt, node0_written) /\
  createPath 0 {[ "name" := PA_string "run" ]} node0_written = (Ok tt, node0_written) /\
  createDataset native0 0 {[ "name" := PA_string "run" ]} node0_written = (Ok tt, node0_written).
Proof.
  split; [reflexivity | apply create_written_noop; reflexivity].
Defined.

(* ------------------------------------------------------------------ *)
(** ** C5: EXTEND_DATASET on an unwritten node *)

(** C5: [extendDataset] on a node with [written == false] raises the
    runtime error "Extending an unwritten Dataset is not possible." (the
    logic error of the spec) before any native call: the state, and in it
    the trace, is unchanged. *)
Theorem extend_unwritten_fails (w : nat) (ps : ArgumentMap) (s : World) :
  written (nodes s w) = false ->
  extendDataset w ps s =
    (Throw (RuntimeError "Extending an unwritten Dataset is not possible."), s).
Proof.
  intros Hw. unfold extendDataset; munfold; simpl. rewrite Hw. reflexivity.
Qed.

Lemma extend_unwritten_fails_witness :
  written (nodes world0 1) = false /\
  extendDataset 1 (parameter extend_task) world0 =
    (Throw (RuntimeError "Extending an unwritten Dataset is not possible."), world0).
Proof.
  split; [reflexivity | apply extend_unwritten_fails; reflexivity].
Defined.

(* ------------------------------------------------------------------ *)
(** ** C6 and C10: DELETE_* and the access mode *)

(** C6: under [READ_ONLY] access the four delete handlers raise their
    runtime error before anything else: the state (nodes, maps, trace of
    native calls) is unchanged. *)
Theorem delete_read_only_fails (N : Native) (h : AbstractIOHandler) (w : nat)
    (ps : ArgumentMap) (s : World) :
  accessType h = READ_ONLY ->
  deleteFile N h w ps s =
    (Throw (RuntimeError "Deleting a file opened as read only is not possible."), s) /\
  deletePath h w ps s =
    (Throw (RuntimeError "Deleting a path in a file opened as read only is not possible."), s) /\
  deleteDataset h w ps s =
    (Throw (RuntimeError "Deleting a path in a file opened as read only is not possible."), s) /\
  deleteAttribute h w ps s =
    (Throw (RuntimeError "Deleting an attribute in a file opened as read only is not possible."), s).
Proof.
  intros Hro.
  unfold deleteFile, deletePath, deleteDataset, deleteAttribute.
  rewrite Hro; simpl. repeat split.
Qed.

Lemma delete_read_only_fails_witness :
  accessType (ro_handler []) = READ_ONLY /\
  deleteFile native0 (ro_handler []) 0 ∅ node0_written =
    (Throw (RuntimeError "Deleting a file opened as read only is not possible."), node0_written) /\
  deletePath (ro_handler []) 0 ∅ node0_written =
    (Throw (RuntimeError "Deleting a path in a file opened as read only is not possible."), node0_written) /\
  deleteDataset (ro_handler []) 0 ∅ node0_written =
    (Throw (RuntimeError "Deleting a path in a file opened as read only is not possible."), node0_written) /\
  deleteAttribute (ro_handler []) 0 ∅ node0_written =
    (Throw (RuntimeError "Deleting an attribute in a file opened as read only is not possible."), node0_written).
Proof.
  split; [reflexivity | apply delete_read_only_fails; reflexivity].
Defined.

(** C10: under an access mode other than [READ_ONLY], the four delete
    handlers on a node with [written == false] return normally and change
    nothing: no native call, [written] and the position token unchanged. *)
Theorem delete_unwritten_noop (N : Native) (h : AbstractIOHandler) (w : nat)
    (ps : ArgumentMap) (s : World) :
  accessType h <> READ_ONLY ->
  written (nodes s w) = false ->
  deleteFile N h w ps s = (Ok tt, s) /\
  deletePath h w ps s = (Ok tt, s) /\
  deleteDataset h w ps s = (Ok tt, s) /\
  deleteAttribute h w ps s = (Ok tt, s).
Proof.
  intros Hrw Hw.
  unfold deleteFile, deletePath, deleteDataset, deleteAttribute.
  destruct (decide (accessType h = READ_ONLY)) as [E|_]; [contradiction|].
  munfold; simpl. rewrite Hw. repeat split.
Qed.

Lemma delete_unwritten_noop_witness :
  accessType (rw_handler []) <> READ_ONLY /\
  written (nodes world0 1) = false /\
  deleteFile native0 (rw_handler []) 1 ∅ world0 = (Ok tt, world0) /\
  deletePath (rw_handler []) 1 ∅ world0 = (Ok tt, world0) /\
  deleteDataset (rw_handler []) 1 ∅ world0 = (Ok tt, world0) /\
  deleteAttribute (rw_handler []) 1 ∅ world0 = (Ok tt, world0).
Proof.
  split; [discriminate | split; [reflexivity |]].
  apply delete_unwritten_noop; [discriminate | reflexivity].
Defined.

(* ------------------------------------------------------------------ *)
(** ** C9: attribute round trip *)

Lemma dtype_of_inject (T : Datatype) (v : carrier T) : dtype_of (inject T v) = T.
Proof. destruct T; try destruct v; reflexivity. Qed.

(** C9: for every datatype [T] with values and every value [v : T], the
    attribute built from [v] gives [v] back under [get< T >()], and
    [get< U >()] for any other [U] fails with a datatype mismatch. *)
Theorem attribute_roundtrip (T : Datatype) (v : carrier T) :
  get T (Attribute_of (inject T v)) = Ok v /\
  (forall U : Datatype, U <> T ->
     get U (Attribute_of (inject T v)) = Throw (DatatypeMismatch T U)).
Proof.
  unfold get, Attribute_of; simpl. rewrite dtype_of_inject. split.
  - rewrite decide_True by reflexivity. destruct T; try destruct v; reflexivity.
  - intros U HU. rewrite decide_False by congruence. reflexivity.
Qed.

Lemma attribute_roundtrip_witness :
  get STRING (Attribute_of (inject STRING "meters")) = Ok "meters"%string /\
  DOUBLE <> STRING /\
  get DOUBLE (Attribute_of (inject STRING "meters")) = Throw (DatatypeMismatch STRING DOUBLE).
Proof.
  split; [apply (attribute_roundtrip STRING "meters") |].
  split; [discriminate |].
  apply (attribute_roundtrip STRING "meters"); discriminate.
Defined.

(* ------------------------------------------------------------------ *)
(** ** Invariants of the trace of native calls *)

Section Keeps.
Context (P : H5Call -> Prop).

Lemma keeps_ret {A} (a : A) : keeps P (mret a).
Proof. intros s. exists []. split; [rewrite app_nil_r; reflexivity | constructor]. Qed.

Lemma keeps_throw {A} (e : Exn) : keeps P (throw (A:=A) e).
Proof. intros s. exists []. split; [rewrite app_nil_r; reflexivity | constructor]. Qed.

Lemma keeps_lift {A} (r : Res A) : keeps P (lift r).
Proof. intros s. exists []. split; [rewrite app_nil_r; reflexivity | constructor]. Qed.

Lemma keeps_gets {A} (f : World -> A) : keeps P (gets f).
Proof. intros s. exists []. split; [rewrite app_nil_r; reflexivity | constructor]. Qed.

Lemma keeps_modify (f : World -> World) :
  (forall s, trace (f s) = trace s) -> keeps P (modify f).
Proof.
  intros Hf s. exists []. split; [simpl; rewrite Hf, app_nil_r; reflexivity | constructor].
Qed.

Lemma keeps_call (c : H5Call) : P c -> keeps P (call c).
Proof. intros Hc s. exists [c]. split; [reflexivity | repeat constructor; assumption]. Qed.

Lemma keeps_bind {A B} (m : M A) (k : A -> M B) :
  keeps P m -> (forall a, keeps P (k a)) -> keeps P (m ≫= k).
Proof.
  intros Hm Hk s. unfold mbind, M_bind.
  destruct (Hm s) as [n1 [E1 F1]].
  destruct (m s) as [[a|e] s1] eqn:Es; simpl in *.
  - destruct (Hk a s1) as [n2 [E2 F2]]. exists (n1 ++ n2).
    split; [rewrite E2, E1, app_assoc; reflexivity | apply Forall_app; split; assumption].
  - exists n1. split; assumption.
Qed.

Lemma keeps_iter {A} (f : A -> M unit) (l : list A) :
  (forall x, keeps P (f x)) -> keeps P (iter_ f l).
Proof.
  intros Hf. induction l as [|x l IH]; simpl.
  - apply keeps_ret.
  - apply keeps_bind; [apply Hf | intros; exact IH].
Qed.

End Keeps.

(** Walk a handler body, splitting at binds and branches. *)
Ltac keeps_tac side :=
  repeat match goal with
  | |- keeps _ (mbind _ _) => apply keeps_bind; [|intros]
  | |- keeps _ (mret _) => apply keeps_ret
  | |- keeps _ (throw _) => apply keeps_throw
  | |- keeps _ (lift _) => apply keeps_lift
  | |- keeps _ (gets _) => apply keeps_gets
  | |- keeps _ (modify _) => apply keeps_modify; intros; reflexivity
  | |- keeps _ (call _) => apply keeps_call; side
  | |- keeps _ (iter_ _ _) => apply keeps_iter; intros
  | |- keeps _ (let _ := _ in _) => cbv zeta
  | |- keeps _ (if ?b then _ else _) => destruct b
  | |- keeps _ (match ?x with _ => _ end) => destruct x
  | |- keeps _ _ =>
      progress unfold deref, ask, find_fid, put_fid, erase_fid, insert_open,
        erase_open, put_cell, read_cell, set_status, pos_of, find_ptr,
        find_or_parent, index_fid, at_, get_string, get_datatype,
        get_extent, get_resource, get_shared_data, get_raw_data, get_dtype_cell,
        get_extent_cell, get_resource_cell, get_strings_cell, fs_exists_,
        fs_call, getH5DataType, push_strings,
        attribute_value, dataset_transfer_check, decode_attribute
  end.

Lemma dtype_of_defined (r : resource) : dtype_of r <> UNDEFINED.
Proof. destruct r; discriminate. Qed.

Ltac no_undefined_side :=
  unfold no_undefined; simpl;
  repeat case_decide;
  first [ congruence
        | let E := fresh in intros E; injection E as E; revert E; apply dtype_of_defined ].

Lemma dispatch_no_undefined (N : Native) (h : AbstractIOHandler) (i : IOTask) :
  keeps no_undefined (dispatch N h i).
Proof.
  destruct i as [w [] ps]; unfold dispatch; simpl;
  [ unfold createFile | unfold createPath | unfold createDataset | unfold extendDataset
  | unfold openFile | unfold openPath | unfold openDataset | unfold deleteFile
  | unfold deletePath | unfold deleteDataset | unfold deleteAttribute
  | unfold writeDataset | unfold writeAttribute | unfold readDataset
  | unfold readAttribute | unfold listPaths | unfold listDatasets | unfold listAttributes ];
  keeps_tac no_undefined_side.
Qed.

Lemma flush_loop_keeps (P : H5Call -> Prop) (N : Native) (h : AbstractIOHandler) :
  (forall i, keeps P (dispatch N h i)) ->
  forall q s, exists new, trace (flush_loop N h q s).2 = trace s ++ new /\ Forall P new.
Proof.
  intros Hd q. induction q as [|i q IH]; intros s; simpl.
  - exists []. split; [rewrite app_nil_r; reflexivity | constructor].
  - destruct (Hd i s) as [n1 [E1 F1]].
    destruct (dispatch N h i s) as [[u|e] s1]; simpl in *.
    + destruct (IH s1) as [n2 [E2 F2]]. exists (n1 ++ n2).
      split; [rewrite E2, E1, app_assoc; reflexivity | apply Forall_app; split; assumption].
    + exists n1. destruct e; simpl; split; assumption.
Qed.

(** C4: during a [flush] of any queue, every native call that stores
    data with a datatype tag (dataset creation, dataset write, attribute
    creation, attribute write) carries a tag other than [UNDEFINED]:
    [createDataset] stores an undefined dtype as [BOOL], [writeDataset]
    raises before [H5Dwrite], [writeAttribute] raises before [H5Awrite] and
    creates attributes with the type of the held value. *)
Theorem flush_never_stores_undefined (N : Native) (h : AbstractIOHandler) (s : World) :
  exists new, trace (flush N h s).2 = trace s ++ new /\
              Forall (fun c => stored_dtype c <> Some UNDEFINED) new.
Proof.
  unfold flush.
  destruct (flush_loop_keeps no_undefined N h (dispatch_no_undefined N h) (m_work h) s)
    as [n [E F]].
  destruct (flush_loop N h (m_work h) s) as [[r q] s'] eqn:Ef; simpl in *.
  exists n. split; assumption.
Qed.

(* ------------------------------------------------------------------ *)
(** ** C1 and C3: the queue drain *)

(** The handlers never read the queue. *)
Lemma dispatch_work_indep (N : Native) (h : AbstractIOHandler) (q : list IOTask) (i : IOTask) :
  dispatch N (with_work h q) i = dispatch N h i.
Proof. destruct h as [d a q0]. reflexivity. Qed.

Lemma flush_loop_work_indep (N : Native) (h : AbstractIOHandler) (q l : list IOTask) (s : World) :
  flush_loop N (with_work h q) l s = flush_loop N h l s.
Proof.
  revert s. induction l as [|i l IH]; intros s; simpl; [reflexivity|].
  rewrite dispatch_work_indep. destruct (dispatch N h i s) as [[u|e] s1]; [apply IH | reflexivity].
Qed.

Lemma flush_with_work (N : Native) (h : AbstractIOHandler) (q : list IOTask) (s : World) :
  flush N (with_work h q) s =
  let '(r, q', s') := flush_loop N h q s in (r, with_work h q', s').
Proof. unfold flush. simpl. rewrite flush_loop_work_indep. reflexivity. Qed.

Lemma flush_loop_app (N : Native) (h : AbstractIOHandler) (q1 q2 : list IOTask) (s s1 : World) :
  run_all N h q1 s = (Ok tt, s1) ->
  flush_loop N h (q1 ++ q2) s = flush_loop N h q2 s1.
Proof.
  revert s. induction q1 as [|i q1 IH]; intros s Hrun; simpl in *.
  - unfold mret, M_ret in Hrun. congruence.
  - unfold mbind, M_bind in Hrun.
    destruct (dispatch N h i s) as [[u|e] s'] eqn:Ed; [|discriminate].
    apply IH. exact Hrun.
Qed.

(** C3: [flush] dispatches the queue in enqueue order: when the tasks
    [q1] at the front of the queue run one after the other (in list
    order) without an exception and reach state [s1], flushing [q1 ++ q2]
    from [s] is the same as flushing [q2] from [s1].  So every task of
    [q1] is dispatched, in order, before any task of [q2]; with [q2 = []]
    the whole flush is the in-order run of the queue, which ends empty. *)
Theorem flush_fifo (N : Native) (h : AbstractIOHandler) (q1 q2 : list IOTask) (s s1 : World) :
  run_all N h q1 s = (Ok tt, s1) ->
  flush N (with_work h (q1 ++ q2)) s = flush N (with_work h q2) s1.
Proof.
  intros Hrun. rewrite !flush_with_work. rewrite (flush_loop_app N h q1 q2 s s1 Hrun).
  reflexivity.
Qed.

Lemma flush_fifo_witness :
  run_all native0 (rw_handler []) fifo_queue world0
    = (Ok tt, (run_all native0 (rw_handler []) fifo_queue world0).2) /\
  flush native0 (with_work (rw_handler []) (fifo_queue ++ [])) world0
    = flush native0 (with_work (rw_handler []) [])
        (run_all native0 (rw_handler []) fifo_queue world0).2 /\
  trace (run_all native0 (rw_handler []) fifo_queue world0).2 =
    [C_Fcreate "out/run.h5"; C_Gopen 100 "/";
     C_Dcreate "x" DOUBLE [4] [4] None; C_Dclose; C_Gclose;
     C_Dopen 100 "/x"; C_Dwrite DOUBLE 7 [0] [2]; C_Dclose;
     C_Dopen 100 "/x"; C_Dwrite DOUBLE 7 [2] [2]; C_Dclose].
Proof.
  split; [vm_compute; reflexivity |].
  split; [apply flush_fifo; vm_compute; reflexivity | vm_compute; reflexivity].
Defined.

(** C1 (as the code does it): when the tasks [pre] at the front of the
    queue succeed and reach [s1], and the next task [i] raises [e] there
    (reaching [s2]), [flush] stops with [e] in state [s2] (no later task is
    dispatched); the queue left is [rest] when [e] is an
    [unsupported_data_error] (the failed task is popped) and [i :: rest]
    for any other exception (the failed task stays at the front and is
    dispatched first by the next [flush]). *)
Theorem flush_stops_at_failure (N : Native) (h : AbstractIOHandler)
    (pre rest : list IOTask) (i : IOTask) (s s1 s2 : World) (e : Exn) :
  run_all N h pre s = (Ok tt, s1) ->
  dispatch N h i s1 = (Throw e, s2) ->
  flush N (with_work h (pre ++ i :: rest)) s =
    (Throw e, with_work h (if is_unsupported e then rest else i :: rest), s2).
Proof.
  intros Hrun Hi. rewrite flush_with_work, (flush_loop_app N h pre (i :: rest) s s1 Hrun).
  simpl. rewrite Hi. destruct e; reflexivity.
Qed.

Lemma flush_stops_at_failure_witness :
  run_all native0 (rw_handler []) [create_file_task] world0
    = (Ok tt, (run_all native0 (rw_handler []) [create_file_task] world0).2) /\
  dispatch native0 (rw_handler []) read_att_task
      (run_all native0 (rw_handler []) [create_file_task] world0).2
    = (Throw (UnsupportedData "Compound attribute type not supported"),
       (dispatch native0 (rw_handler []) read_att_task
          (run_all native0 (rw_handler []) [create_file_task] world0).2).2) /\
  flush native0 (with_work (rw_handler []) ([create_file_task] ++ read_att_task :: [create_dataset_task])) world0
    = (Throw (UnsupportedData "Compound attribute type not supported"),
       with_work (rw_handler []) [create_dataset_task],
       (dispatch native0 (rw_handler []) read_att_task
          (run_all native0 (rw_handler []) [create_file_task] world0).2).2).
Proof.
  split; [vm_compute; reflexivity |].
  split; [vm_compute; reflexivity |].
  apply (flush_stops_at_failure native0 (rw_handler []) [create_file_task]
           [create_dataset_task] read_att_task world0
           (run_all native0 (rw_handler []) [create_file_task] world0).2
           (dispatch native0 (rw_handler []) read_att_task
              (run_all native0 (rw_handler []) [create_file_task] world0).2).2);
    vm_compute; reflexivity.
Defined.

(** C1 as stated fails: the failed task is not removed when its handler
    raises an exception other than [unsupported_data_error].  Here the
    extension of the unwritten dataset 1 raises a runtime error and the
    queue is left as it was, the failed task still at its front. *)
Lemma flush_keeps_failed_task :
  flush native0 (rw_handler [extend_task; create_file_task]) world0 =
    (Throw (RuntimeError "Extending an unwritten Dataset is not possible."),
     rw_handler [extend_task; create_file_task], world0).
Proof. vm_compute. reflexivity. Qed.

(* ------------------------------------------------------------------ *)
(** ** C7: DELETE_* on a written node *)

Ltac fin :=
  split; [|first [split; reflexivity | reflexivity]];
  rewrite <- ?app_assoc; do 2 eexists; split; [first [eassumption | reflexivity]|];
  split; [reflexivity|]; cbn [In app];
  repeat (first [left; reflexivity | right]).

Ltac run_hyp :=
  repeat (case_match; simplify_eq/=; try unfold gets in * );
  try (case_decide; [|congruence]).

(** C7 as stated fails: [deleteAttribute] on a written node returns
    normally after [H5Adelete], and the node keeps [written == true] and
    its position token. *)
Lemma delete_attribute_keeps_node :
  let '(r, s1) := deleteAttribute (rw_handler []) 0 {[ "name" := PA_string "unit" ]} node0_written in
  r = Ok tt /\
  last (trace s1) = Some C_Oclose /\ In (C_Adelete "unit") (trace s1) /\
  written (nodes s1 0) = true /\ abstractFilePosition (nodes s1 0) = Some "/".
Proof. vm_compute. repeat split; auto 10. Qed.

Opaque concrete_h5_file_position.

(** C7 (as the code does it): under an access mode other than
    [READ_ONLY], on a node with [written == true], when [deleteFile],
    [deletePath] or [deleteDataset] returns normally, the native removal
    is among the calls it made: [remove] of the file [directory + name]
    (".h5" appended when missing) for the "name" parameter, [H5Ldelete] of
    the sanitized "path" (for [deleteDataset]: "name") parameter followed
    by the node's position token; afterwards the node has
    [written == false] and no position token.  [deleteAttribute] removes
    the attribute named by its "name" parameter ([H5Adelete]) and leaves
    the nodes, [written] and the token included, unchanged. *)
Theorem delete_written_resets (N : Native) (h : AbstractIOHandler) (w : nat)
    (ps : ArgumentMap) (s : World) :
  accessType h <> READ_ONLY ->
  written (nodes s w) = true ->
  let pos := default "" (abstractFilePosition (nodes s w)) in
  (forall s1, deleteFile N h w ps s = (Ok tt, s1) ->
     (exists new nm, ps !! "name" = Some (PA_string nm) /\ trace s1 = trace s ++ new /\
        In (C_remove (with_h5 (directory h +:+ nm))) new) /\
     written (nodes s1 w) = false /\ abstractFilePosition (nodes s1 w) = None) /\
  (forall s1, deletePath h w ps s = (Ok tt, s1) ->
     (exists new p, ps !! "path" = Some (PA_string p) /\ trace s1 = trace s ++ new /\
        In (C_Ldelete (sanitize p +:+ pos)) new) /\
     written (nodes s1 w) = false /\ abstractFilePosition (nodes s1 w) = None) /\
  (forall s1, deleteDataset h w ps s = (Ok tt, s1) ->
     (exists new nm, ps !! "name" = Some (PA_string nm) /\ trace s1 = trace s ++ new /\
        In (C_Ldelete (sanitize nm +:+ pos)) new) /\
     written (nodes s1 w) = false /\ abstractFilePosition (nodes s1 w) = None) /\
  (forall s1, deleteAttribute h w ps s = (Ok tt, s1) ->
     (exists new nm, ps !! "name" = Some (PA_string nm) /\ trace s1 = trace s ++ new /\
        In (C_Adelete nm) new) /\
     nodes s1 = nodes s).
Proof.
  intros Hrw Hw pos.
  unfold deleteFile, deletePath, deleteDataset, deleteAttribute.
  destruct (decide (accessType h = READ_ONLY)) as [Hro|_]; [contradiction|].
  split; [|split; [|split]]; intros s1 E; do 3 munfold; simpl in E; rewrite Hw in E;
    simpl in E; run_hyp; fin.
Qed.

Lemma delete_written_resets_witness :
  deleteFile native0 (rw_handler []) 0
      {[ "name" := PA_string "run"; "path" := PA_string "grp" ]} node0_written =
    (Ok tt, (deleteFile native0 (rw_handler []) 0
      {[ "name" := PA_string "run"; "path" := PA_string "grp" ]} node0_written).2) /\
  written (nodes (deleteFile native0 (rw_handler []) 0
      {[ "name" := PA_string "run"; "path" := PA_string "grp" ]} node0_written).2 0) = false.
Proof.
  assert (E : deleteFile native0 (rw_handler []) 0
      {[ "name" := PA_string "run"; "path" := PA_string "grp" ]} node0_written =
    (Ok tt, (deleteFile native0 (rw_handler []) 0
      {[ "name" := PA_string "run"; "path" := PA_string "grp" ]} node0_written).2))
    by (vm_compute; reflexivity).
  split; [exact E|].
  destruct (delete_written_resets native0 (rw_handler []) 0
      {[ "name" := PA_string "run"; "path" := PA_string "grp" ]} node0_written)
    as [HF _]; [vm_compute; discriminate | vm_compute; reflexivity |].
  exact (proj1 (proj2 (HF _ E))).
Defined.

Transparent concrete_h5_file_position.

(* ------------------------------------------------------------------ *)
(** ** C8: OPEN_* does not depend on [written] *)

Lemma chain_layout f ns ns' o :
  (forall v, parent (ns' v) = parent (ns v)) ->
  (forall v, abstractFilePosition (ns' v) = abstractFilePosition (ns v)) ->
  chain f ns' o = chain f ns o.
Proof.
  intros Hp Ha. revert o. induction f as [|f IH]; intros [v|]; simpl; auto.
  rewrite Hp, Ha, IH. reflexivity.
Qed.

Lemma concrete_with_written w b s o :
  concrete_h5_file_position (nodes (with_written w b s)) o =
  concrete_h5_file_position (nodes s) o.
Proof.
  assert (Hp : forall v, parent (nodes (with_written w b s) v) = parent (nodes s v))
    by (intros v; simpl; case_decide; subst; reflexivity).
  assert (Ha : forall v, abstractFilePosition (nodes (with_written w b s) v) =
                         abstractFilePosition (nodes s v))
    by (intros v; simpl; case_decide; subst; reflexivity).
  unfold concrete_h5_file_position. destruct o as [v|]; [|reflexivity].
  rewrite Ha, Hp, !(chain_layout _ _ _ _ Hp Ha). reflexivity.
Qed.

Section Sim.
Context {A B : Type}.

Lemma sim2_ret (a : A) : sim2 (mret a) (mret a).
Proof. intros s t H. split; [reflexivity | exact H]. Qed.

Lemma sim2_throw e : sim2 (throw (A:=A) e) (throw e).
Proof. intros s t H. split; [reflexivity | exact H]. Qed.

Lemma sim2_lift (r : Res A) : sim2 (lift r) (lift r).
Proof. intros s t H. split; [reflexivity | exact H]. Qed.

Lemma sim2_bind (m1 m2 : M A) (k1 k2 : A -> M B) :
  sim2 m1 m2 -> (forall a, sim2 (k1 a) (k2 a)) -> sim2 (m1 ≫= k1) (m2 ≫= k2).
Proof.
  intros Hm Hk s t H. destruct (Hm s t H) as [E H1].
  unfold mbind, M_bind.
  destruct (m1 s) as [[a|e] s1], (m2 t) as [[a'|e'] t1];
    simpl in *; try discriminate; injection E as ->; auto.
  apply Hk; exact H1.
Qed.

Lemma sim2_deref_bind w (k1 k2 : Writable -> M B) :
  (forall n1 n2, parent n2 = parent n1 -> sim2 (k1 n1) (k2 n2)) ->
  sim2 (deref w ≫= k1) (deref w ≫= k2).
Proof.
  intros Hk s t H. unfold mbind, M_bind, deref, gets.
  apply Hk; [apply H | exact H].
Qed.

End Sim.

Lemma sim2_call c : sim2 (call c) (call c).
Proof.
  intros s t (Hp & Ha & Hf & Ho & Ht). unfold call, modify. simpl.
  split; [reflexivity|]. repeat split; simpl; auto. congruence.
Qed.

Lemma sim2_ask {A} (q : list H5Call -> A) : sim2 (ask q) (ask q).
Proof.
  intros s t H. unfold ask, gets. simpl.
  pose proof H as (_ & _ & _ & _ & Ht). rewrite Ht.
  split; [reflexivity | exact H].
Qed.

Lemma sim2_find_fid w : sim2 (find_fid w) (find_fid w).
Proof.
  intros s t H. unfold find_fid, gets. simpl.
  pose proof H as (_ & _ & Hf & _). rewrite Hf.
  split; [reflexivity | exact H].
Qed.

Lemma sim2_put_fid w id : sim2 (put_fid w id) (put_fid w id).
Proof.
  intros s t (Hp & Ha & Hf & Ho & Ht). unfold put_fid, modify. simpl.
  split; [reflexivity|]. repeat split; simpl; auto. congruence.
Qed.

Lemma sim2_erase_fid w : sim2 (erase_fid w) (erase_fid w).
Proof.
  intros s t (Hp & Ha & Hf & Ho & Ht). unfold erase_fid, modify. simpl.
  split; [reflexivity|]. repeat split; simpl; auto. congruence.
Qed.

Lemma sim2_insert_open id : sim2 (insert_open id) (insert_open id).
Proof.
  intros s t (Hp & Ha & Hf & Ho & Ht). unfold insert_open, modify. simpl.
  split; [reflexivity|]. repeat split; simpl; auto. congruence.
Qed.

Lemma sim2_put_cell c v : sim2 (put_cell c v) (put_cell c v).
Proof.
  intros s t H. unfold put_cell, modify. simpl.
  split; [reflexivity|]. exact H.
Qed.

Lemma sim2_set_status w b p : sim2 (set_status w b p) (set_status w b p).
Proof.
  intros s t (Hp & Ha & Hf & Ho & Ht). unfold set_status, modify. simpl.
  split; [reflexivity|]. repeat split; simpl; auto;
    intros v; case_decide; simpl; subst; auto.
Qed.

Lemma concrete_same_layout s t o :
  same_layout s t ->
  concrete_h5_file_position (nodes t) o = concrete_h5_file_position (nodes s) o.
Proof.
  intros (Hp & Ha & _). unfold concrete_h5_file_position.
  destruct o as [v|]; [|reflexivity].
  rewrite Ha, Hp, !(chain_layout _ _ _ _ Hp Ha). reflexivity.
Qed.

Lemma sim2_pos_of o : sim2 (pos_of o) (pos_of o).
Proof.
  intros s t H. unfold pos_of, gets. simpl.
  rewrite (concrete_same_layout s t o H). split; [reflexivity | exact H].
Qed.

Lemma same_layout_with_written w b s : same_layout s (with_written w b s).
Proof.
  repeat split; simpl; auto; intros v; case_decide; subst; reflexivity.
Qed.

Ltac sim_tac :=
  repeat (cbv zeta; first
    [ apply sim2_deref_bind; intros ?n1 ?n2 ?Hpar; rewrite ?Hpar
    | apply sim2_bind; [|intros ?x]
    | apply sim2_ret | apply sim2_throw | apply sim2_lift | apply sim2_call
    | apply sim2_ask | apply sim2_find_fid | apply sim2_put_fid
    | apply sim2_erase_fid | apply sim2_insert_open | apply sim2_put_cell
    | apply sim2_set_status | apply sim2_pos_of
    | match goal with
      | |- sim2 (match ?x with _ => _ end) _ => destruct x
      | |- sim2 (if ?x then _ else _) _ => destruct x
      end ]).

Lemma open_sim N h w ps :
  sim2 (openFile N h w ps) (openFile N h w ps) /\
  sim2 (openPath w ps) (openPath w ps) /\
  sim2 (openDataset N w ps) (openDataset N w ps).
Proof.
  unfold openFile, openPath, openDataset, get_string, get_dtype_cell,
    get_extent_cell, fs_exists_, at_, find_ptr.
  split_and!; sim_tac.
Qed.

Opaque concrete_h5_file_position.

(** C8: [openFile], [openPath] and [openDataset] never look at the
    node's [written] flag: run on a state where that flag of the node has
    been set to any [b], each returns the same result, makes the same
    native calls and leaves the same file-id table.  When one of them
    returns normally the node has [written == true] and a fresh position
    token: "/" for a file, the sanitized [path] or [name] parameter for a
    path or a dataset. *)
Theorem open_ignores_written (N : Native) (h : AbstractIOHandler) (w : nat)
    (ps : ArgumentMap) (s : World) (b : bool) :
  (fst (openFile N h w ps (with_written w b s)) = fst (openFile N h w ps s) /\
   trace (openFile N h w ps (with_written w b s)).2 = trace (openFile N h w ps s).2 /\
   m_fileIDs (openFile N h w ps (with_written w b s)).2 =
     m_fileIDs (openFile N h w ps s).2) /\
  (fst (openPath w ps (with_written w b s)) = fst (openPath w ps s) /\
   trace (openPath w ps (with_written w b s)).2 = trace (openPath w ps s).2 /\
   m_fileIDs (openPath w ps (with_written w b s)).2 = m_fileIDs (openPath w ps s).2) /\
  (fst (openDataset N w ps (with_written w b s)) = fst (openDataset N w ps s) /\
   trace (openDataset N w ps (with_written w b s)).2 = trace (openDataset N w ps s).2 /\
   m_fileIDs (openDataset N w ps (with_written w b s)).2 =
     m_fileIDs (openDataset N w ps s).2) /\
  (forall s1, openFile N h w ps s = (Ok tt, s1) ->
     written (nodes s1 w) = true /\ abstractFilePosition (nodes s1 w) = Some "/") /\
  (forall s1, openPath w ps s = (Ok tt, s1) ->
     written (nodes s1 w) = true /\
     exists p, ps !! "path" = Some (PA_string p) /\
               abstractFilePosition (nodes s1 w) = Some (sanitize p)) /\
  (forall s1, openDataset N w ps s = (Ok tt, s1) ->
     written (nodes s1 w) = true /\
     exists nm, ps !! "name" = Some (PA_string nm) /\
                abstractFilePosition (nodes s1 w) = Some (sanitize nm)).
Proof.
  destruct (open_sim N h w ps) as (HF & HP & HD).
  pose proof (same_layout_with_written w b s) as L.
  destruct (HF _ _ L) as [EF (_ & _ & FF & _ & TF)].
  destruct (HP _ _ L) as [EP (_ & _ & FP & _ & TP)].
  destruct (HD _ _ L) as [ED (_ & _ & FD & _ & TD)].
  split_and!; auto.
  all: intros s1 E; unfold openFile, openPath, openDataset in E;
    do 3 munfold; simpl in E; run_hyp; split; eauto.
Qed.

Transparent concrete_h5_file_position.

Lemma open_ignores_written_witness :
  openPath 1 {[ "path" := PA_string "grp" ]} node0_written =
    (Ok tt, (openPath 1 {[ "path" := PA_string "grp" ]} node0_written).2) /\
  written (nodes (openPath 1 {[ "path" := PA_string "grp" ]} node0_written).2 1) = true /\
  fst (openPath 1 {[ "path" := PA_string "grp" ]} (with_written 1 true node0_written)) = Ok tt.
Proof.
  assert (E : openPath 1 {[ "path" := PA_string "grp" ]} node0_written =
    (Ok tt, (openPath 1 {[ "path" := PA_string "grp" ]} node0_written).2))
    by (vm_compute; reflexivity).
  destruct (open_ignores_written native0 (rw_handler []) 1
      {[ "path" := PA_string "grp" ]} node0_written true)
    as (_ & [EP _] & _ & _ & HP & _).
  split; [exact E|]. split; [exact (proj1 (HP _ E))|].
  rewrite EP, E. reflexivity.
Defined.

(* ------------------------------------------------------------------ *)
(** ** Further properties of the handlers *)

Lemma string_length_app (s t : string) :
  String.length (s +:+ t) = (String.length s + String.length t)%nat.
Proof. induction s as [|c s IH]; simpl; auto. Qed.

Lemma substring_app_r (s t : string) (n : nat) :
  substring (String.length s) n (s +:+ t) = substring 0 n t.
Proof. induction s as [|c s IH]; simpl; auto. Qed.

Lemma substring_whole (t : string) : substring 0 (String.length t) t = t.
Proof. induction t as [|c t IH]; simpl; congruence. Qed.

Lemma ends_with_app (s suf : string) : ends_with (s +:+ suf) suf = true.
Proof.
  unfold ends_with. rewrite string_length_app.
  replace (String.length s + String.length suf - String.length suf)%nat
    with (String.length s) by lia.
  rewrite substring_app_r, substring_whole, String.eqb_refl.
  apply andb_true_intro; split; [apply Nat.leb_le; lia | reflexivity].
Qed.

(** X1: the file name [createFile], [openFile] and [deleteFile] use always
    ends in ".h5", and a name that already ends in ".h5" is left as it
    is. *)
Theorem with_h5_suffix (name : string) :
  ends_with (with_h5 name) ".h5" = true /\
  (ends_with name ".h5" = true -> with_h5 name = name).
Proof.
  unfold with_h5. destruct (ends_with name ".h5") eqn:E.
  - split; [exact E | reflexivity].
  - split; [apply ends_with_app | discriminate].
Qed.

(** X2: the normalised path or dataset name of [createPath], [openPath],
    [openDataset], [extendDataset], [deletePath] and [deleteDataset]
    always ends in "/". *)
Theorem sanitize_trailing_slash (p : string) : ends_with (sanitize p) "/" = true.
Proof.
  unfold sanitize.
  destruct (ends_with (if starts_with p "/" then replace_first p "/" "" else p) "/") eqn:E;
    [exact E | apply ends_with_app].
Qed.

Opaque concrete_h5_file_position with_h5 sanitize split.

(** X3: [createFile] on an unwritten node whose parameters have no
    "name" raises [std::out_of_range] when the file-system calls before it
    succeed; no file is created and the node and both id tables are
    unchanged, but the directory has already been created when [exists]
    reported it missing. *)
Theorem createFile_missing_name (N : Native) (h : AbstractIOHandler) (w : nat)
    (ps : ArgumentMap) (s : World) (ex : bool) :
  written (nodes s w) = false -> ps !! "name" = None ->
  fs_exists N (trace s) (directory h) = Some ex ->
  (ex = false -> fs_fails N (trace s) (C_create_directories (directory h)) = false) ->
  let s' := (createFile N h w ps s).2 in
  fst (createFile N h w ps s) = Throw (OutOfRange "name") /\
  nodes s' = nodes s /\ m_fileIDs s' = m_fileIDs s /\
  m_openFileIDs s' = m_openFileIDs s /\
  trace s' = trace s ++ (if ex then [] else [C_create_directories (directory h)]).
Proof.
  intros Hw Hn Hex Hf. unfold createFile. do 3 munfold. simpl. rewrite Hw. simpl.
  rewrite Hex. simpl. destruct ex; simpl.
  - rewrite Hn; simpl; rewrite ?app_nil_r; auto.
  - rewrite Hf by reflexivity. simpl. rewrite Hn. simpl. auto.
Qed.

(** X4: [createFile] on an unwritten node with a "name" parameter [nm]
    returns normally when the file-system calls succeed; its last native
    call creates the file [directory + nm] (with ".h5" appended when
    missing), the node is written with position "/", and the id
    [H5Fcreate] returned is both the node's file id and an open file
    id. *)
Theorem createFile_success (N : Native) (h : AbstractIOHandler) (w : nat)
    (ps : ArgumentMap) (s : World) (nm : string) (ex : bool) :
  written (nodes s w) = false -> ps !! "name" = Some (PA_string nm) ->
  fs_exists N (trace s) (directory h) = Some ex ->
  (ex = false -> fs_fails N (trace s) (C_create_directories (directory h)) = false) ->
  let s' := (createFile N h w ps s).2 in
  let id := fcreate_id N (trace s ++ (if ex then [] else [C_create_directories (directory h)]))
                       (with_h5 (directory h +:+ nm)) in
  fst (createFile N h w ps s) = Ok tt /\
  written (nodes s' w) = true /\ abstractFilePosition (nodes s' w) = Some "/" /\
  last (trace s') = Some (C_Fcreate (with_h5 (directory h +:+ nm))) /\
  m_fileIDs s' !! w = Some id /\ id ∈ m_openFileIDs s'.
Proof.
  intros Hw Hn Hex Hf. unfold createFile. do 3 munfold. simpl. rewrite Hw. simpl.
  rewrite Hex. simpl. destruct ex; simpl;
    [|rewrite Hf by reflexivity; simpl]; rewrite Hn; simpl;
    (case_decide; [|congruence]); simpl; rewrite ?app_nil_r; split_and!; auto;
    try (rewrite last_snoc; reflexivity); try (by simplify_map_eq); set_solver.
Qed.

Lemma iter_call {A} (f : A -> H5Call) (l : list A) (s : World) :
  iter_ (fun x => call (f x)) l s =
  (Ok tt, mkWorld (nodes s) (m_fileIDs s) (m_openFileIDs s) (cells s)
                  (trace s ++ map f l)).
Proof.
  revert s. induction l as [|x l IH]; intros s; simpl.
  - rewrite app_nil_r. destruct s; reflexivity.
  - unfold mbind, M_bind, call, modify. rewrite IH. simpl.
    rewrite <- app_assoc. reflexivity.
Qed.

(** The same, with [call] unfolded as [munfold] leaves it. *)
Lemma iter_call_unfolded {A} (f : A -> H5Call) (l : list A) (s : World) :
  iter_ (fun x s0 => (Ok tt, mkWorld (nodes s0) (m_fileIDs s0) (m_openFileIDs s0)
                                     (cells s0) (trace s0 ++ [f x]))) l s =
  (Ok tt, mkWorld (nodes s) (m_fileIDs s) (m_openFileIDs s) (cells s)
                  (trace s ++ map f l)).
Proof. exact (iter_call f l s). Qed.

Lemma map_const_repeat {A B} (b : B) (l : list A) :
  map (fun _ => b) l = repeat b (List.length l).
Proof. induction l; simpl; congruence. Qed.

(** X5: [createPath] on an unwritten node with a "path" parameter [p]
    opens the group of its parent (of itself for the root), creates one
    group per component of the normalised path, in order, then closes
    every group it opened: one [H5Gclose] per component and one for the
    start group.  The node is then written with the normalised path as its
    position and inherits the file id of the start group. *)
Theorem createPath_groups (w : nat) (ps : ArgumentMap) (s : World) (p : string) :
  written (nodes s w) = false -> ps !! "path" = Some (PA_string p) ->
  let position := match parent (nodes s w) with Some q => q | None => w end in
  let folders := split (sanitize p) "/" in
  let s' := (createPath w ps s).2 in
  fst (createPath w ps s) = Ok tt /\
  trace s' = trace s ++
    C_Gopen (deref_fid (m_fileIDs s !! position))
            (concrete_h5_file_position (nodes s) (Some position))
    :: map C_Gcreate folders ++ repeat C_Gclose (S (List.length folders)) /\
  written (nodes s' w) = true /\ abstractFilePosition (nodes s' w) = Some (sanitize p) /\
  m_fileIDs s' !! w = Some (deref_fid (m_fileIDs s !! position)).
Proof.
  intros Hw Hp. unfold createPath. do 3 munfold. simpl. rewrite Hw. simpl.
  rewrite Hp. simpl. rewrite (iter_call_unfolded C_Gcreate). simpl.
  munfold. simpl. rewrite (iter_call_unfolded (fun _ => C_Gclose)). simpl.
  case_decide; [|congruence]. simpl.
  rewrite map_map, map_const_repeat, ?length_map.
  split_and!; auto.
  - rewrite <- !app_assoc. reflexivity.
  - by simplify_map_eq.
Qed.

(** X6: [createDataset] on an unwritten node, with all six parameters
    present and either no compression or a format other than
    zlib, gzip or deflate, makes exactly four native calls: open the
    group, create the dataset uncompressed (name stripped of one leading
    "/" and, when it ends in "/", of one "/", [UNDEFINED] stored as
    [BOOL], the given extent and chunk size), close the dataset, close
    the group, provided [getH5DataType] maps the datatype.  The node is
    then written with the stripped name as its position. *)
Theorem createDataset_uncompressed (N : Native) (w : nat) (ps : ArgumentMap) (s : World)
    (nm : string) (d : Datatype) (dims chunk : list Z) (c t : string) :
  written (nodes s w) = false ->
  ps !! "name" = Some (PA_string nm) -> ps !! "dtype" = Some (PA_datatype d) ->
  ps !! "extent" = Some (PA_extent dims) -> ps !! "chunkSize" = Some (PA_extent chunk) ->
  ps !! "compression" = Some (PA_string c) -> ps !! "transform" = Some (PA_string t) ->
  c = "" \/ is_deflate (List.nth 0 (split c ":") "") = false ->
  h5_datatype_ok N (mkAttribute (R_INT32 0) (if decide (d = UNDEFINED) then BOOL else d)) = true ->
  let name1 := if starts_with nm "/" then replace_first nm "/" "" else nm in
  let name := if ends_with name1 "/" then replace_first name1 "/" "" else name1 in
  let s' := (createDataset N w ps s).2 in
  fst (createDataset N w ps s) = Ok tt /\
  (exists fid loc, trace s' = trace s ++
     [C_Gopen fid loc; C_Dcreate name (if decide (d = UNDEFINED) then BOOL else d)
                                 dims chunk None; C_Dclose; C_Gclose]) /\
  written (nodes s' w) = true /\ abstractFilePosition (nodes s' w) = Some name.
Proof.
  intros Hw Hn Hd He Hc Hco Ht Hcomp Hty. unfold createDataset. do 3 munfold. simpl.
  rewrite Hw. simpl. rewrite Hn. simpl.
  destruct (m_fileIDs s !! w); simpl; [|destruct (parent (nodes s w)); simpl];
    rewrite ?Hd, ?He, ?Hc, ?Hco, ?Ht; simpl;
    (destruct Hcomp as [->|Hf]; simpl;
     [| destruct (String.eqb c "") eqn:?; simpl; [|rewrite Hf; simpl]]);
    rewrite ?Ht; simpl; rewrite Hty; simpl; (destruct (decide (w = w)); [|congruence]); simpl;
    (split_and!; [reflexivity | do 2 eexists; rewrite <- !app_assoc; reflexivity
                 | reflexivity | reflexivity]).
Qed.

(** X7: when [createDataset] is asked for zlib, gzip or deflate
    compression with one argument that [std::stoi] rejects, it raises that
    exception after opening the group and before creating anything: the
    only native call made is the group open, and the node stays
    unwritten. *)
Theorem createDataset_bad_level (N : Native) (w : nat) (ps : ArgumentMap) (s : World)
    (nm : string) (d : Datatype) (dims chunk : list Z) (c : string) (e : Exn) :
  written (nodes s w) = false ->
  ps !! "name" = Some (PA_string nm) -> ps !! "dtype" = Some (PA_datatype d) ->
  ps !! "extent" = Some (PA_extent dims) -> ps !! "chunkSize" = Some (PA_extent chunk) ->
  ps !! "compression" = Some (PA_string c) ->
  is_deflate (List.nth 0 (split c ":") "") = true ->
  List.length (split c ":") = 2%nat ->
  stoi (List.nth 1 (split c ":") "") = Throw e ->
  let s' := (createDataset N w ps s).2 in
  fst (createDataset N w ps s) = Throw e /\
  (exists fid loc, trace s' = trace s ++ [C_Gopen fid loc]) /\
  nodes s' = nodes s.
Proof.
  intros Hw Hn Hd He Hc Hco Hf Hl Hs.
  assert (Hne : String.eqb c "" = false).
  { destruct (String.eqb c "") eqn:E; [|reflexivity].
    apply String.eqb_eq in E. subst c. vm_compute in Hl. discriminate. }
  unfold createDataset. do 3 munfold. simpl.
  rewrite Hw. simpl. rewrite Hn. simpl.
  destruct (m_fileIDs s !! w); simpl; [|destruct (parent (nodes s w)); simpl];
    rewrite ?Hd, ?He, ?Hc, ?Hco; simpl; rewrite Hne, Hf, Hl; simpl; rewrite Hs; simpl;
    (split_and!; [reflexivity | do 2 eexists; reflexivity | reflexivity]).
Qed.

(** X8: [extendDataset] on a written node with "name" [nm] and "extent"
    [e] makes exactly five native calls: open the parent's group, open the
    dataset by its normalised name, set its extent to [e], close the
    dataset, close the group.  It changes no node, id table or output
    cell. *)
Theorem extendDataset_calls (w : nat) (ps : ArgumentMap) (s : World)
    (nm : string) (e : list Z) :
  written (nodes s w) = true ->
  ps !! "name" = Some (PA_string nm) -> ps !! "extent" = Some (PA_extent e) ->
  let s' := (extendDataset w ps s).2 in
  fst (extendDataset w ps s) = Ok tt /\
  trace s' = trace s ++
    [C_Gopen (deref_fid (match parent (nodes s w) with
                         | Some v => m_fileIDs s !! v | None => None end))
             (concrete_h5_file_position (nodes s) (parent (nodes s w)));
     C_Dopen_sub (sanitize nm); C_Dset_extent e; C_Dclose; C_Gclose] /\
  nodes s' = nodes s /\ m_fileIDs s' = m_fileIDs s /\
  m_openFileIDs s' = m_openFileIDs s /\ cells s' = cells s.
Proof.
  intros Hw Hn He. unfold extendDataset. do 3 munfold. simpl.
  rewrite Hw. simpl.
  destruct (parent (nodes s w)); simpl; rewrite Hn; simpl; rewrite He; simpl;
    split_and!; try reflexivity; rewrite <- !app_assoc; reflexivity.
Qed.

(** X9: when the handler's directory does not exist, [openFile] raises
    [no_such_file_error] before any native call and leaves the state as
    it was ([exists] answers that the directory is missing). *)
Theorem openFile_no_directory (N : Native) (h : AbstractIOHandler) (w : nat)
    (ps : ArgumentMap) (s : World) :
  fs_exists N (trace s) (directory h) = Some false ->
  openFile N h w ps s =
    (Throw (NoSuchFile ("Supplied directory is not valid: " +:+ directory h)), s).
Proof. intros Hd. unfold openFile. do 3 munfold. simpl. rewrite Hd. reflexivity. Qed.

(** X10: with an existing directory and a "name" parameter [nm], [openFile]
    makes one native call, [H5Fopen] of [directory + nm] (".h5" appended
    when missing), read-only exactly when the access type is [READ_ONLY].
    A negative id makes it raise [no_such_file_error] with the node and
    both id tables unchanged; a non-negative id is recorded as the node's
    file id and as an open file id. *)
Theorem openFile_fopen (N : Native) (h : AbstractIOHandler) (w : nat)
    (ps : ArgumentMap) (s : World) (nm : string) :
  fs_exists N (trace s) (directory h) = Some true ->
  ps !! "name" = Some (PA_string nm) ->
  let name := with_h5 (directory h +:+ nm) in
  let id := fopen_id N (trace s) name in
  let s' := (openFile N h w ps s).2 in
  trace s' = trace s ++ [C_Fopen name (if decide (accessType h = READ_ONLY)
                                        then H5F_ACC_RDONLY else H5F_ACC_RDWR)] /\
  (if id <? 0
   then fst (openFile N h w ps s) = Throw (NoSuchFile ("Failed to open HDF5 file " +:+ name)) /\
        nodes s' = nodes s /\ m_fileIDs s' = m_fileIDs s /\ m_openFileIDs s' = m_openFileIDs s
   else fst (openFile N h w ps s) = Ok tt /\
        m_fileIDs s' !! w = Some id /\ id ∈ m_openFileIDs s').
Proof.
  intros Hd Hn. unfold openFile. do 3 munfold. simpl. rewrite Hd. simpl.
  rewrite Hn. simpl.
  destruct (fopen_id N (trace s) (with_h5 (directory h ++ nm)) <? 0); simpl;
    (split; [destruct (accessType h); reflexivity|]);
    split_and!; try reflexivity; [by simplify_map_eq | set_solver].
Qed.

(** X11: [deleteFile] on a written node whose file does not exist closes
    the file's id, then raises [std::runtime_error]; the node stays
    written and the closed id stays in both the node's id table and the
    set of open files. *)
Theorem deleteFile_missing_file (N : Native) (h : AbstractIOHandler) (w : nat)
    (ps : ArgumentMap) (s : World) (id : Z) (nm : string) :
  accessType h <> READ_ONLY -> written (nodes s w) = true ->
  m_fileIDs s !! w = Some id -> ps !! "name" = Some (PA_string nm) ->
  fs_exists N (trace s ++ [C_Fclose id]) (with_h5 (directory h +:+ nm)) = Some false ->
  deleteFile N h w ps s =
    (Throw (RuntimeError ("File does not exist: " +:+ with_h5 (directory h +:+ nm))),
     mkWorld (nodes s) (m_fileIDs s) (m_openFileIDs s) (cells s) (trace s ++ [C_Fclose id])).
Proof.
  intros Hro Hw Hf Hn He. unfold deleteFile.
  destruct (decide (accessType h = READ_ONLY)); [contradiction|].
  do 3 munfold. simpl. rewrite Hw. simpl. rewrite Hf. simpl. rewrite Hn. simpl.
  rewrite He. reflexivity.
Qed.

(** X12: [deleteFile] on a written node whose file exists, when the
    [remove] succeeds, closes the file's id, removes the file, and drops
    the id from the set of open files and the node from the id table. *)
Theorem deleteFile_tables (N : Native) (h : AbstractIOHandler) (w : nat)
    (ps : ArgumentMap) (s : World) (id : Z) (nm : string) :
  accessType h <> READ_ONLY -> written (nodes s w) = true ->
  m_fileIDs s !! w = Some id -> ps !! "name" = Some (PA_string nm) ->
  fs_exists N (trace s ++ [C_Fclose id]) (with_h5 (directory h +:+ nm)) = Some true ->
  fs_fails N (trace s ++ [C_Fclose id]) (C_remove (with_h5 (directory h +:+ nm))) = false ->
  let s' := (deleteFile N h w ps s).2 in
  fst (deleteFile N h w ps s) = Ok tt /\
  trace s' = trace s ++ [C_Fclose id; C_remove (with_h5 (directory h +:+ nm))] /\
  m_fileIDs s' = delete w (m_fileIDs s) /\ m_openFileIDs s' = m_openFileIDs s ∖ {[id]}.
Proof.
  intros Hro Hw Hf Hn He Hr. unfold deleteFile.
  destruct (decide (accessType h = READ_ONLY)); [contradiction|].
  do 3 munfold. simpl. rewrite Hw. simpl. rewrite Hf. simpl. rewrite Hn. simpl.
  rewrite He. simpl. rewrite Hr. simpl. split_and!; try reflexivity.
  rewrite <- app_assoc. reflexivity.
Qed.

Lemma keeps_transfer_check (P : H5Call -> Prop) {B} (d : Datatype) (k : M B) :
  (transfer_type d = true -> keeps P k) -> keeps P (dataset_transfer_check d;; k).
Proof.
  intros Hk. unfold dataset_transfer_check.
  destruct d;
    first [ apply keeps_bind; [apply keeps_ret | intros; apply Hk; reflexivity]
          | intros s; exists []; munfold; simpl;
            split; [rewrite app_nil_r; reflexivity | constructor] ].
Qed.

(** [keeps_tac], keeping the outcome of the datatype check of
    [readDataset] for the transfer that follows it. *)
Ltac keeps_tac_checked side :=
  repeat match goal with
  | |- keeps _ (mbind (fun _ => _) (dataset_transfer_check _)) =>
      apply keeps_transfer_check; intros
  | |- keeps _ (mbind _ _) => apply keeps_bind; [|intros]
  | |- keeps _ (mret _) => apply keeps_ret
  | |- keeps _ (throw _) => apply keeps_throw
  | |- keeps _ (lift _) => apply keeps_lift
  | |- keeps _ (gets _) => apply keeps_gets
  | |- keeps _ (modify _) => apply keeps_modify; intros; reflexivity
  | |- keeps _ (call _) => apply keeps_call; side
  | |- keeps _ (iter_ _ _) => apply keeps_iter; intros
  | |- keeps _ (let _ := _ in _) => cbv zeta
  | |- keeps _ (if ?b then _ else _) => destruct b
  | |- keeps _ (match ?x with _ => _ end) => destruct x
  | |- keeps _ _ =>
      progress unfold deref, ask, find_fid, put_fid, erase_fid, insert_open,
        erase_open, put_cell, read_cell, set_status, pos_of, find_ptr,
        find_or_parent, index_fid, at_, get_string, get_datatype,
        get_extent, get_resource, get_shared_data, get_raw_data, get_dtype_cell,
        get_extent_cell, get_resource_cell, get_strings_cell, fs_exists_,
        fs_call, getH5DataType, push_strings,
        attribute_value, decode_attribute
  end.

Lemma dispatch_transfer_ok (N : Native) (h : AbstractIOHandler) (i : IOTask) :
  keeps transfer_ok (dispatch N h i).
Proof.
  destruct i as [w [] ps]; unfold dispatch; simpl;
  [ unfold createFile | unfold createPath | unfold createDataset | unfold extendDataset
  | unfold openFile | unfold openPath | unfold openDataset | unfold deleteFile
  | unfold deletePath | unfold deleteDataset | unfold deleteAttribute
  | unfold writeDataset | unfold writeAttribute | unfold readDataset
  | unfold readAttribute | unfold listPaths | unfold listDatasets | unfold listAttributes ];
  keeps_tac_checked ltac:(unfold transfer_ok; simpl; first [exact I | reflexivity | assumption]).
Qed.

(** X14: during a [flush] of any queue, every [H5Dwrite] and [H5Dread] the
    handler issues carries one of the eleven transfer datatypes ([CHAR],
    [UCHAR], the signed and unsigned 16, 32 and 64 bit integers, [FLOAT],
    [DOUBLE], [BOOL]); strings, vectors, [LONG_DOUBLE] and the meta tags
    raise before any transfer. *)
Theorem flush_transfers_supported (N : Native) (h : AbstractIOHandler) (s : World) :
  exists new, trace (flush N h s).2 = trace s ++ new /\ Forall transfer_ok new.
Proof.
  unfold flush.
  destruct (flush_loop_keeps transfer_ok N h (dispatch_transfer_ok N h) (m_work h) s)
    as [n [E F]].
  destruct (flush_loop N h (m_work h) s) as [[r q] s'] eqn:Ef; simpl in *.
  exists n. split; assumption.
Qed.


Lemma attribute_value_held (r : resource) (s : World) :
  attribute_value (dtype_of r) (Attribute_of r) s = (Ok r, s).
Proof. destruct r; reflexivity. Qed.

Lemma bool_or_held (d : Datatype) : (if decide (d = BOOL) then BOOL else d) = d.
Proof. case_decide; congruence. Qed.

(** X15: a [writeAttribute] whose requested [dtype] is the type of the
    held value returns normally after exactly five native calls: it opens
    the object, opens the attribute when [H5Aexists] finds it and creates
    it with the held type otherwise, writes the held value with that type,
    and closes the attribute and the object. *)
Theorem writeAttribute_held_type (N : Native) (w : nat) (ps : ArgumentMap) (s : World)
    (nm : string) (r : resource) :
  ps !! "name" = Some (PA_string nm) -> ps !! "attribute" = Some (PA_resource r) ->
  ps !! "dtype" = Some (PA_datatype (dtype_of r)) ->
  fst (writeAttribute N w ps s) = Ok tt /\
  exists fid loc, trace (writeAttribute N w ps s).2 =
    trace s ++ [C_Oopen fid loc;
                if aexists N (trace s ++ [C_Oopen fid loc]) loc nm
                then C_Aopen nm else C_Acreate nm (dtype_of r);
                C_Awrite (dtype_of r) r; C_Aclose; C_Oclose].
Proof.
  intros Hn Ha Hd. unfold writeAttribute. do 3 munfold. simpl.
  rewrite Hn, Ha, Hd. simpl.
  rewrite bool_or_held.
  destruct (m_fileIDs s !! w); simpl; [|destruct (parent (nodes s w)); simpl];
  match goal with
  | |- context [C_Oopen ?f ?l] =>
      destruct (aexists N (trace s ++ [C_Oopen f l]) l nm) eqn:Ex; simpl;
      rewrite attribute_value_held; simpl;
      (split; [reflexivity | exists f, l; rewrite Ex; rewrite <- !app_assoc; reflexivity])
  end.
Qed.

Lemma attribute_value_mismatch (d : Datatype) (r : resource) (s : World) :
  d <> UNDEFINED -> d <> DATATYPE -> d <> dtype_of r ->
  attribute_value d (Attribute_of r) s = (Throw (DatatypeMismatch (dtype_of r) d), s).
Proof.
  intros Hu Hm Hd. unfold attribute_value, get, Attribute_of. munfold.
  destruct d; try congruence; simpl; (destruct (decide (dtype_of r = _)); [congruence | reflexivity]).
Qed.

(** X16: a [writeAttribute] whose requested [dtype] (not a meta tag) differs
    from the type of the held value fails in the typed read-out of the
    value, after it has already opened the object and opened or created
    the attribute (created with [BOOL] if requested, else with the held
    type); nothing is written and nothing is closed. *)
Theorem writeAttribute_mismatch (N : Native) (w : nat) (ps : ArgumentMap) (s : World)
    (nm : string) (r : resource) (d : Datatype) :
  ps !! "name" = Some (PA_string nm) -> ps !! "attribute" = Some (PA_resource r) ->
  ps !! "dtype" = Some (PA_datatype d) ->
  d <> UNDEFINED -> d <> DATATYPE -> d <> dtype_of r ->
  fst (writeAttribute N w ps s) = Throw (DatatypeMismatch (dtype_of r) d) /\
  exists fid loc, trace (writeAttribute N w ps s).2 =
    trace s ++ [C_Oopen fid loc;
                if aexists N (trace s ++ [C_Oopen fid loc]) loc nm
                then C_Aopen nm
                else C_Acreate nm (if decide (d = BOOL) then BOOL else dtype_of r)].
Proof.
  intros Hn Ha Hd Hu Hm Hne. unfold writeAttribute. do 3 munfold. simpl.
  rewrite Hn, Ha, Hd. simpl.
  destruct (m_fileIDs s !! w); simpl; [|destruct (parent (nodes s w)); simpl];
  match goal with
  | |- context [C_Oopen ?f ?l] =>
      destruct (aexists N (trace s ++ [C_Oopen f l]) l nm) eqn:Ex; simpl;
      rewrite (attribute_value_mismatch d r) by assumption; simpl;
      (split; [reflexivity | exists f, l; rewrite Ex; rewrite <- !app_assoc; reflexivity])
  end.
Qed.

Lemma errs_bind (P : H5Call -> Prop) {A B} (m : M A) (k : A -> M B) :
  keeps P m -> (forall a, errs_keep P (k a)) -> errs_keep P (m ≫= k).
Proof.
  intros Hm Hk s e. unfold mbind, M_bind.
  destruct (Hm s) as [n1 [E1 F1]].
  destruct (m s) as [[a|e'] s1] eqn:Es; simpl in *; intros He.
  - destruct (Hk a s1 e He) as [n2 [E2 F2]]. exists (n1 ++ n2).
    split; [rewrite E2, E1, app_assoc; reflexivity | apply Forall_app; split; assumption].
  - exists n1. split; assumption.
Qed.

Lemma errs_never (P : H5Call -> Prop) {A} (m : M A) :
  (forall s, exists a, fst (m s) = Ok a) -> errs_keep P m.
Proof. intros Hm s e He. destruct (Hm s) as [a Ha]. congruence. Qed.

(** Walk a handler body up to the calls that cannot raise. *)
Ltac errs_tac side :=
  repeat match goal with
  | |- errs_keep _ (mbind _ (call _)) =>
      apply errs_never; intros; eexists; munfold; reflexivity
  | |- errs_keep _ (call _) =>
      apply errs_never; intros; eexists; munfold; reflexivity
  | |- errs_keep _ (mbind (fun _ => put_fid _ _) (call _)) =>
      apply errs_never; intros; eexists; munfold; reflexivity
  | |- errs_keep _ (mbind _ _) => apply errs_bind; [keeps_tac side | intros]
  | |- errs_keep _ (match ?x with _ => _ end) => destruct x
  end.

Lemma decode_attribute_frame (N : Native) loc name cls ty dims s r s' :
  decode_attribute N loc name cls ty dims s = (r, s') ->
  cells s' = cells s /\ nodes s' = nodes s /\ m_fileIDs s' = m_fileIDs s /\
  exists new, trace s' = trace s ++ new.
Proof.
  unfold decode_attribute. munfold. intros E.
  repeat (case_match; simpl in E; try discriminate E);
  injection E as _ <-; simpl; split_and!; try reflexivity;
  first [ eexists; reflexivity | exists []; rewrite app_nil_r; reflexivity ].
Qed.

(** X17: when [writeDataset], [readDataset], [writeAttribute] or
    [readAttribute] raises, none of the native calls it made is a close:
    the dataset, object or attribute it opened stays open. *)
Theorem transfer_errors_leave_open (N : Native) (w : nat) (ps : ArgumentMap) :
  errs_keep not_close (writeDataset N w ps) /\ errs_keep not_close (readDataset N w ps) /\
  errs_keep not_close (writeAttribute N w ps) /\ errs_keep not_close (readAttribute N w ps).
Proof.
  split_and!;
  [unfold writeDataset | unfold readDataset | unfold writeAttribute | unfold readAttribute];
  errs_tac ltac:(unfold not_close; simpl; exact I).
Qed.

(** X18: a [readAttribute] that returns normally stores the value read in
    the [resource] cell and its datatype tag in the [dtype] cell, leaves
    the other cells, the nodes and the id table unchanged, and closes the
    attribute and the object last. *)
Theorem readAttribute_fills_cells (N : Native) (w : nat) (ps : ArgumentMap) (s : World)
    (c1 c2 : nat) :
  ps !! "dtype" = Some (PA_dtype_cell c1) -> ps !! "resource" = Some (PA_resource_cell c2) ->
  fst (readAttribute N w ps s) = Ok tt ->
  let s' := (readAttribute N w ps s).2 in
  exists v new, cells s' = <[c2:=CResource v]> (<[c1:=CDatatype (dtype_of v)]> (cells s)) /\
  nodes s' = nodes s /\ m_fileIDs s' = m_fileIDs s /\
  trace s' = trace s ++ new ++ [C_Aclose; C_Oclose].
Proof.
  intros H1 H2 H. simpl.
  destruct (readAttribute N w ps s) as [r s'] eqn:E. simpl in H. subst r.
  unfold readAttribute in E. do 3 munfold. simpl in E.
  rewrite H1, H2 in E.
  repeat (case_match; simplify_eq/=; try unfold gets in * ).
  all: match goal with
  | Hd : decode_attribute _ _ _ _ _ _ _ = (Ok ?v, ?w2) |- _ =>
      destruct (decode_attribute_frame _ _ _ _ _ _ _ _ _ Hd) as (Ec & En & Ef & new & Et);
      simpl in *; exists v; eexists ([_; _] ++ new); rewrite Ec, En, Ef, Et;
      split_and!; try reflexivity; rewrite <- !app_assoc; simpl; reflexivity
  end.
Qed.

(** X19: [listPaths], [listDatasets] and [listAttributes], each given
    its output cell [c] under its own key ("paths", "datasets",
    "attributes"), append the names they find to the vector already in the
    cell (an empty one when the cell holds none) and touch no other cell:
    the names of groups, of datasets, and of attributes respectively. *)
Theorem list_handlers_append (N : Native) (w : nat) (ps : ArgumentMap) (s : World)
    (c : nat) :
  let prev := match cells s !! c with Some (CStrings p) => p | _ => [] end in
  (ps !! "paths" = Some (PA_strings_cell c) ->
   fst (listPaths N w ps s) = Ok tt /\
   exists fid loc, cells (listPaths N w ps s).2 =
     <[c:=CStrings (prev ++ links_of H5G_GROUP
                              (group_links N (trace s ++ [C_Gopen fid loc]) loc))]> (cells s)) /\
  (ps !! "datasets" = Some (PA_strings_cell c) ->
   fst (listDatasets N w ps s) = Ok tt /\
   exists fid loc, cells (listDatasets N w ps s).2 =
     <[c:=CStrings (prev ++ links_of H5G_DATASET
                              (group_links N (trace s ++ [C_Gopen fid loc]) loc))]> (cells s)) /\
  (ps !! "attributes" = Some (PA_strings_cell c) ->
   fst (listAttributes N w ps s) = Ok tt /\
   exists fid loc, cells (listAttributes N w ps s).2 =
     <[c:=CStrings (prev ++ attr_names N (trace s ++ [C_Oopen fid loc]) loc)]> (cells s)).
Proof.
  intros prev.
  split_and!; intros Hc; unfold listPaths, listDatasets, listAttributes, push_strings;
    do 3 munfold; simpl; rewrite Hc; simpl;
    (destruct (m_fileIDs s !! w); simpl; [|destruct (parent (nodes s w)); simpl]);
    (split; [reflexivity | do 2 eexists; reflexivity]).
Qed.

Lemma flush_loop_ok_drains (N : Native) (h : AbstractIOHandler) (q : list IOTask) (s : World) :
  (flush_loop N h q s).1.1 = Ok tt -> (flush_loop N h q s).1.2 = [].
Proof.
  revert s. induction q as [|i q IH]; intros s; simpl; [reflexivity|].
  destruct (dispatch N h i s) as [[u|[]] s1]; simpl; try discriminate. apply IH.
Qed.

(** X20: a [flush] that returns normally leaves the task queue empty. *)
Theorem flush_ok_drains (N : Native) (h : AbstractIOHandler) (s : World) :
  (flush N h s).1.1 = Ok tt -> m_work (flush N h s).1.2 = [].
Proof.
  unfold flush. pose proof (flush_loop_ok_drains N h (m_work h) s) as Hd.
  destruct (flush_loop N h (m_work h) s) as [[r q] s']; simpl in *. exact Hd.
Qed.

Lemma begin_min_in : begin_in begin_min.
Proof.
  intros o Hne. unfold begin_min.
  destruct (merge_sort Z.le (elements o)) as [|x l] eqn:E.
  - exfalso. apply Hne. apply set_eq. intros y. split; [|set_solver].
    intros Hy. apply elem_of_elements in Hy.
    rewrite <- (merge_sort_Permutation Z.le), E in Hy. set_solver.
  - simpl. apply elem_of_elements.
    rewrite <- (merge_sort_Permutation Z.le), E. left.
Qed.

Lemma close_open_files_all (begin_ : gset Z -> Z) (n : nat) (s : World) :
  begin_in begin_ -> size (m_openFileIDs s) = n ->
  exists ids, close_open_files begin_ n s =
    (Ok tt, mkWorld (nodes s) (m_fileIDs s) ∅ (cells s) (trace s ++ map C_Fclose ids)) /\
    ids ≡ₚ elements (m_openFileIDs s).
Proof.
  intros Hb. revert s. induction n as [|n IH]; intros s Hs; simpl.
  - apply size_empty_inv, leibniz_equiv in Hs.
    destruct s as [nd f o c t]; simpl in *. subst o.
    exists []. rewrite app_nil_r, elements_empty. split; reflexivity.
  - munfold. simpl.
    destruct (decide (m_openFileIDs s = ∅)) as [He|Hne].
    + rewrite He, size_empty in Hs. discriminate.
    + pose proof (Hb _ Hne) as Hx.
      set (x := begin_ (m_openFileIDs s)) in *.
      destruct (IH (mkWorld (nodes s) (m_fileIDs s) (m_openFileIDs s ∖ {[x]}) (cells s)
                            (trace s ++ [C_Fclose x]))) as [ids [E Hp]].
      { simpl. rewrite size_difference by set_solver. rewrite size_singleton. lia. }
      unfold set_openFileIDs. simpl. rewrite E. exists (x :: ids). simpl.
      split; [rewrite <- app_assoc; reflexivity|].
      rewrite (union_difference_singleton_L x (m_openFileIDs s)) by exact Hx.
      rewrite elements_union_singleton by set_solver. constructor. exact Hp.
Qed.

(** X21: the destructor closes every open file id exactly once, whichever
    element [begin()] designates, and leaves no id open; the nodes, the id
    table and the cells are not touched. *)
Theorem destructor_closes_all (begin_ : gset Z -> Z) (s : World) :
  begin_in begin_ ->
  exists ids, destructor begin_ s =
    (Ok tt, mkWorld (nodes s) (m_fileIDs s) ∅ (cells s) (trace s ++ map C_Fclose ids)) /\
  NoDup ids /\ (forall id, id ∈ ids <-> id ∈ m_openFileIDs s).
Proof.
  intros Hb. unfold destructor. munfold. simpl.
  destruct (close_open_files_all begin_ (size (m_openFileIDs s)) s Hb eq_refl) as [ids [E Hp]].
  exists ids. split_and!.
  - exact E.
  - rewrite Hp. apply NoDup_elements.
  - intros id. rewrite Hp. apply elem_of_elements.
Qed.

(** X22: a [deleteFile] that finds no file closes the file's id but keeps it
    among the open ids, so the destructor that follows closes the same id a
    second time, whichever element [begin()] designates. *)
Theorem deleteFile_missing_double_close (N : Native) (h : AbstractIOHandler) (w : nat)
    (ps : ArgumentMap) (s : World) (id : Z) (nm : string) (begin_ : gset Z -> Z) :
  begin_in begin_ ->
  accessType h <> READ_ONLY -> written (nodes s w) = true ->
  m_fileIDs s !! w = Some id -> id ∈ m_openFileIDs s -> ps !! "name" = Some (PA_string nm) ->
  fs_exists N (trace s ++ [C_Fclose id]) (with_h5 (directory h +:+ nm)) = Some false ->
  exists l1 l2, trace (destructor begin_ (deleteFile N h w ps s).2).2 =
    trace s ++ [C_Fclose id] ++ l1 ++ [C_Fclose id] ++ l2.
Proof.
  intros Hb Hro Hw Hf Ho Hn He. unfold deleteFile.
  destruct (decide (accessType h = READ_ONLY)); [contradiction|].
  do 3 munfold. simpl. rewrite Hw. simpl. rewrite Hf. simpl. rewrite Hn. simpl.
  rewrite He. simpl. unfold destructor. munfold. simpl.
  match goal with
  | |- context [close_open_files begin_ ?n ?s1] =>
      destruct (close_open_files_all begin_ n s1 Hb eq_refl)
        as [ids [E Hp]]; rewrite E
  end.
  simpl.
  assert (Hin : id ∈ ids) by (rewrite Hp; apply elem_of_elements, Ho).
  apply list_elem_of_split in Hin as (l1 & l2 & ->).
  exists (map C_Fclose l1), (map C_Fclose l2).
  rewrite map_app. simpl. rewrite <- !app_assoc. reflexivity.
Qed.

(** X23: [deletePath] and [deleteDataset] on a written node under
    read-write access open the parent's group, delete the link named by the
    sanitized parameter ("path" for [deletePath], "name" for
    [deleteDataset]) followed by the node's own location, close the group,
    and drop the node from the id table; the set of open files is
    unchanged. *)
Theorem delete_link_calls (h : AbstractIOHandler) (w : nat) (ps : ArgumentMap) (s : World)
    (pos : string) :
  accessType h <> READ_ONLY -> written (nodes s w) = true ->
  abstractFilePosition (nodes s w) = Some pos ->
  let loc := concrete_h5_file_position (nodes s) (parent (nodes s w)) in
  (forall p, ps !! "path" = Some (PA_string p) ->
   fst (deletePath h w ps s) = Ok tt /\
   (exists fid, trace (deletePath h w ps s).2 =
      trace s ++ [C_Gopen fid loc; C_Ldelete (sanitize p +:+ pos); C_Gclose]) /\
   m_fileIDs (deletePath h w ps s).2 = delete w (m_fileIDs s) /\
   m_openFileIDs (deletePath h w ps s).2 = m_openFileIDs s) /\
  (forall nm, ps !! "name" = Some (PA_string nm) ->
   fst (deleteDataset h w ps s) = Ok tt /\
   (exists fid, trace (deleteDataset h w ps s).2 =
      trace s ++ [C_Gopen fid loc; C_Ldelete (sanitize nm +:+ pos); C_Gclose]) /\
   m_fileIDs (deleteDataset h w ps s).2 = delete w (m_fileIDs s) /\
   m_openFileIDs (deleteDataset h w ps s).2 = m_openFileIDs s).
Proof.
  intros Hro Hw Hpos loc.
  split; [intros p Hp; unfold deletePath | intros nm Hp; unfold deleteDataset];
  (destruct (decide (accessType h = READ_ONLY)); [contradiction|]);
  do 3 munfold; simpl; rewrite Hw; simpl; rewrite Hp; simpl; rewrite Hpos; simpl;
  (destruct (m_fileIDs s !! w); simpl; [|destruct (parent (nodes s w)); simpl]);
  (split_and!; [reflexivity | eexists; rewrite <- !app_assoc; reflexivity | reflexivity | reflexivity]).
Qed.

(** X24: an [openDataset] that returns normally reports one of the ten
    native numeric types or [STRING] in the [dtype] cell (never [BOOL],
    [LONG_DOUBLE] or a meta tag) and the dataspace extent in the [extent]
    cell, touches no other cell, and marks the node written at the
    sanitized name. *)
Theorem openDataset_reports (N : Native) (w : nat) (ps : ArgumentMap) (s : World)
    (nm : string) (c1 c2 : nat) :
  ps !! "name" = Some (PA_string nm) ->
  ps !! "dtype" = Some (PA_dtype_cell c1) -> ps !! "extent" = Some (PA_extent_cell c2) ->
  fst (openDataset N w ps s) = Ok tt ->
  let s' := (openDataset N w ps s).2 in
  exists d dims, cells s' = <[c2:=CExtent dims]> (<[c1:=CDatatype d]> (cells s)) /\
  In d [CHAR; UCHAR; INT16; INT32; INT64; FLOAT; DOUBLE; UINT16; UINT32; UINT64; STRING] /\
  written (nodes s' w) = true /\ abstractFilePosition (nodes s' w) = Some (sanitize nm).
Proof.
  intros Hn H1 H2 H. simpl.
  destruct (openDataset N w ps s) as [r s'] eqn:E. simpl in H. subst r.
  unfold openDataset, dataset_dtype in E. do 3 munfold. simpl in E.
  rewrite Hn, H1, H2 in E.
  repeat (case_match; simplify_eq/=; try unfold gets in * ).
  all: do 2 eexists; split_and!;
    [reflexivity | repeat (first [left; reflexivity | right]) | reflexivity | reflexivity].
Qed.


(** X26: when [boost::filesystem::exists] throws on the handler's
    directory, [createFile] on an unwritten node and [openFile] raise
    [filesystem_error] before any native call and leave the state as it
    was. *)
Theorem exists_failure_propagates (N : Native) (h : AbstractIOHandler) (w : nat)
    (ps : ArgumentMap) (s : World) :
  fs_exists N (trace s) (directory h) = None ->
  (written (nodes s w) = false ->
   createFile N h w ps s = (Throw (FilesystemError (directory h)), s)) /\
  openFile N h w ps s = (Throw (FilesystemError (directory h)), s).
Proof.
  intros Hx. split; [intros Hw; unfold createFile | unfold openFile];
    do 3 munfold; simpl; rewrite ?Hw; simpl; rewrite Hx; reflexivity.
Qed.

Transparent concrete_h5_file_position with_h5 sanitize split.

Lemma createFile_missing_name_witness :
  fst (createFile native0 (rw_handler []) 0 ∅ world0) = Throw (OutOfRange "name").
Proof.
  exact (proj1 (createFile_missing_name native0 (rw_handler []) 0 ∅ world0 true
                  eq_refl eq_refl eq_refl ltac:(discriminate))).
Defined.

Lemma createFile_success_witness :
  fst (createFile native0 (rw_handler []) 0 {[ "name" := PA_string "run" ]} world0) = Ok tt.
Proof.
  exact (proj1 (createFile_success native0 (rw_handler []) 0 {[ "name" := PA_string "run" ]}
                  world0 "run" true eq_refl eq_refl eq_refl ltac:(discriminate))).
Defined.

Lemma createPath_groups_witness :
  fst (createPath 1 {[ "path" := PA_string "a/b" ]} node0_written) = Ok tt.
Proof. exact (proj1 (createPath_groups 1 {[ "path" := PA_string "a/b" ]} node0_written "a/b" eq_refl eq_refl)). Defined.

Lemma createDataset_uncompressed_witness :
  fst (createDataset native0 1 (parameter create_dataset_task) node0_written) = Ok tt.
Proof.
  exact (proj1 (createDataset_uncompressed native0 1 (parameter create_dataset_task) node0_written
                  "x" DOUBLE [4] [4] "" ""
                  eq_refl eq_refl eq_refl eq_refl eq_refl eq_refl eq_refl (or_introl eq_refl) eq_refl)).
Defined.

Lemma createDataset_bad_level_witness :
  fst (createDataset native0 1
         (<[ "name" := PA_string "x" ]> (<[ "dtype" := PA_datatype DOUBLE ]>
          (<[ "extent" := PA_extent [4] ]> (<[ "chunkSize" := PA_extent [4] ]>
          {[ "compression" := PA_string "zlib:high" ]})))) node0_written)
    = Throw (InvalidArgument "stoi").
Proof.
  exact (proj1 (createDataset_bad_level native0 1
                  (<[ "name" := PA_string "x" ]> (<[ "dtype" := PA_datatype DOUBLE ]>
                   (<[ "extent" := PA_extent [4] ]> (<[ "chunkSize" := PA_extent [4] ]>
                   {[ "compression" := PA_string "zlib:high" ]})))) node0_written "x" DOUBLE [4] [4] "zlib:high"
                  (InvalidArgument "stoi")
                  eq_refl eq_refl eq_refl eq_refl eq_refl eq_refl eq_refl eq_refl eq_refl)).
Defined.

Lemma extendDataset_calls_witness :
  fst (extendDataset 0 (<[ "name" := PA_string "x" ]> {[ "extent" := PA_extent [8] ]})
         node0_written) = Ok tt.
Proof. exact (proj1 (extendDataset_calls 0 (<[ "name" := PA_string "x" ]> {[ "extent" := PA_extent [8] ]}) node0_written "x" [8] eq_refl eq_refl eq_refl)). Defined.

Lemma openFile_no_directory_witness :
  openFile native_missing (rw_handler []) 0 ∅ world0 =
    (Throw (NoSuchFile "Supplied directory is not valid: out/"), world0).
Proof. exact (openFile_no_directory native_missing (rw_handler []) 0 ∅ world0 eq_refl). Defined.

Lemma openFile_fopen_witness :
  trace (openFile native0 (ro_handler []) 0 {[ "name" := PA_string "run" ]} world0).2 =
    [C_Fopen "out/run.h5" H5F_ACC_RDONLY].
Proof.
  exact (proj1 (openFile_fopen native0 (ro_handler []) 0 {[ "name" := PA_string "run" ]} world0 "run" eq_refl eq_refl)).
Defined.

Lemma deleteFile_missing_file_witness :
  deleteFile native_missing (rw_handler []) 0 {[ "name" := PA_string "run" ]} node0_written =
    (Throw (RuntimeError "File does not exist: out/run.h5"),
     mkWorld (nodes node0_written) {[ 0%nat := 100 ]} {[ 100 ]} ∅ [C_Fclose 100]).
Proof.
  exact (deleteFile_missing_file native_missing (rw_handler []) 0 {[ "name" := PA_string "run" ]} node0_written 100 "run"
           ltac:(discriminate) eq_refl eq_refl eq_refl eq_refl).
Defined.

Lemma deleteFile_tables_witness :
  fst (deleteFile native0 (rw_handler []) 0 {[ "name" := PA_string "run" ]} node0_written) = Ok tt.
Proof.
  exact (proj1 (deleteFile_tables native0 (rw_handler []) 0 {[ "name" := PA_string "run" ]} node0_written 100 "run"
                  ltac:(discriminate) eq_refl eq_refl eq_refl eq_refl eq_refl)).
Defined.

Lemma writeAttribute_held_type_witness :
  fst (writeAttribute native0 0
         (<[ "name" := PA_string "unit" ]> (<[ "attribute" := PA_resource (R_STRING "m") ]>
          {[ "dtype" := PA_datatype STRING ]})) node0_written) = Ok tt.
Proof.
  exact (proj1 (writeAttribute_held_type native0 0
                  (<[ "name" := PA_string "unit" ]> (<[ "attribute" := PA_resource (R_STRING "m") ]>
                   {[ "dtype" := PA_datatype STRING ]})) node0_written "unit" (R_STRING "m")
                  eq_refl eq_refl eq_refl)).
Defined.

Lemma writeAttribute_mismatch_witness :
  fst (writeAttribute native0 0
         (<[ "name" := PA_string "unit" ]> (<[ "attribute" := PA_resource (R_STRING "m") ]>
          {[ "dtype" := PA_datatype DOUBLE ]})) node0_written)
    = Throw (DatatypeMismatch STRING DOUBLE).
Proof.
  exact (proj1 (writeAttribute_mismatch native0 0
                  (<[ "name" := PA_string "unit" ]> (<[ "attribute" := PA_resource (R_STRING "m") ]>
                   {[ "dtype" := PA_datatype DOUBLE ]})) node0_written "unit" (R_STRING "m") DOUBLE
                  eq_refl eq_refl eq_refl ltac:(discriminate) ltac:(discriminate)
                  ltac:(discriminate))).
Defined.

Lemma readAttribute_fills_cells_witness :
  exists v new,
    cells (readAttribute native_missing 0
             (<[ "name" := PA_string "unit" ]> (<[ "dtype" := PA_dtype_cell 1 ]>
              {[ "resource" := PA_resource_cell 2 ]})) node0_written).2 =
      <[2%nat:=CResource v]> (<[1%nat:=CDatatype (dtype_of v)]> ∅) /\
    nodes (readAttribute native_missing 0
             (<[ "name" := PA_string "unit" ]> (<[ "dtype" := PA_dtype_cell 1 ]>
              {[ "resource" := PA_resource_cell 2 ]})) node0_written).2 = nodes node0_written /\
    m_fileIDs (readAttribute native_missing 0
             (<[ "name" := PA_string "unit" ]> (<[ "dtype" := PA_dtype_cell 1 ]>
              {[ "resource" := PA_resource_cell 2 ]})) node0_written).2 = {[ 0%nat := 100 ]} /\
    trace (readAttribute native_missing 0
             (<[ "name" := PA_string "unit" ]> (<[ "dtype" := PA_dtype_cell 1 ]>
              {[ "resource" := PA_resource_cell 2 ]})) node0_written).2 =
      [] ++ new ++ [C_Aclose; C_Oclose].
Proof.
  exact (readAttribute_fills_cells native_missing 0
           (<[ "name" := PA_string "unit" ]> (<[ "dtype" := PA_dtype_cell 1 ]>
            {[ "resource" := PA_resource_cell 2 ]})) node0_written 1 2
           eq_refl eq_refl ltac:(vm_compute; reflexivity)).
Defined.

Lemma list_handlers_append_witness :
  fst (listPaths native_missing 0 {[ "paths" := PA_strings_cell 1 ]} node0_written) = Ok tt /\
  fst (listDatasets native_missing 0 {[ "datasets" := PA_strings_cell 2 ]} node0_written) = Ok tt /\
  fst (listAttributes native_missing 0 {[ "attributes" := PA_strings_cell 3 ]} node0_written)
    = Ok tt.
Proof.
  split_and!.
  - exact (proj1 (proj1 (list_handlers_append native_missing 0
                           {[ "paths" := PA_strings_cell 1 ]} node0_written 1) eq_refl)).
  - exact (proj1 (proj1 (proj2 (list_handlers_append native_missing 0
                           {[ "datasets" := PA_strings_cell 2 ]} node0_written 2)) eq_refl)).
  - exact (proj1 (proj2 (proj2 (list_handlers_append native_missing 0
                           {[ "attributes" := PA_strings_cell 3 ]} node0_written 3)) eq_refl)).
Defined.

Lemma flush_ok_drains_witness :
  m_work (flush native0 (with_work (rw_handler []) fifo_queue) world0).1.2 = [].
Proof.
  exact (flush_ok_drains native0 (with_work (rw_handler []) fifo_queue) world0
           ltac:(vm_compute; reflexivity)).
Defined.

Lemma deleteFile_missing_double_close_witness :
  exists l1 l2,
    trace (destructor begin_min (deleteFile native_missing (rw_handler []) 0
                         {[ "name" := PA_string "run" ]} node0_written).2).2 =
    [] ++ [C_Fclose 100] ++ l1 ++ [C_Fclose 100] ++ l2.
Proof.
  exact (deleteFile_missing_double_close native_missing (rw_handler []) 0
           {[ "name" := PA_string "run" ]} node0_written 100 "run" begin_min begin_min_in
           ltac:(discriminate) eq_refl eq_refl ltac:(vm_compute; reflexivity)
           eq_refl eq_refl).
Defined.

Lemma delete_link_calls_witness :
  fst (deletePath (rw_handler []) 1 {[ "path" := PA_string "grp" ]} group1_written) = Ok tt /\
  fst (deleteDataset (rw_handler []) 1 {[ "name" := PA_string "grp" ]} group1_written) = Ok tt.
Proof.
  split.
  - exact (proj1 (proj1 (delete_link_calls (rw_handler []) 1
                           {[ "path" := PA_string "grp" ]} group1_written "grp/"
                           ltac:(discriminate) eq_refl eq_refl) "grp" eq_refl)).
  - exact (proj1 (proj2 (delete_link_calls (rw_handler []) 1
                           {[ "name" := PA_string "grp" ]} group1_written "grp/"
                           ltac:(discriminate) eq_refl eq_refl) "grp" eq_refl)).
Defined.

Lemma openDataset_reports_witness :
  exists d dims,
    cells (openDataset native0 1
             (<[ "name" := PA_string "x" ]> (<[ "dtype" := PA_dtype_cell 1 ]>
              {[ "extent" := PA_extent_cell 2 ]})) node0_written).2 =
      <[2%nat:=CExtent dims]> (<[1%nat:=CDatatype d]> ∅) /\
    In d [CHAR; UCHAR; INT16; INT32; INT64; FLOAT; DOUBLE; UINT16; UINT32; UINT64; STRING] /\
    written (nodes (openDataset native0 1
             (<[ "name" := PA_string "x" ]> (<[ "dtype" := PA_dtype_cell 1 ]>
              {[ "extent" := PA_extent_cell 2 ]})) node0_written).2 1) = true /\
    abstractFilePosition (nodes (openDataset native0 1
             (<[ "name" := PA_string "x" ]> (<[ "dtype" := PA_dtype_cell 1 ]>
              {[ "extent" := PA_extent_cell 2 ]})) node0_written).2 1) = Some (sanitize "x").
Proof.
  exact (openDataset_reports native0 1
           (<[ "name" := PA_string "x" ]> (<[ "dtype" := PA_dtype_cell 1 ]>
            {[ "extent" := PA_extent_cell 2 ]})) node0_written "x" 1 2
           eq_refl eq_refl eq_refl ltac:(vm_compute; reflexivity)).
Defined.

Lemma with_h5_suffix_witness : with_h5 "run.h5" = "run.h5".
Proof. exact (proj2 (with_h5_suffix "run.h5") eq_refl). Defined.

Lemma destructor_closes_all_witness :
  exists ids, destructor begin_min node0_written =
    (Ok tt, mkWorld (nodes node0_written) (m_fileIDs node0_written) ∅ (cells node0_written)
                    (trace node0_written ++ map C_Fclose ids)) /\
  NoDup ids /\ (forall id, id ∈ ids <-> id ∈ m_openFileIDs node0_written).
Proof. exact (destructor_closes_all begin_min node0_written begin_min_in). Defined.


Lemma exists_failure_propagates_witness :
  createFile native_fs_broken (rw_handler []) 0 {[ "name" := PA_string "run" ]} world0
    = (Throw (FilesystemError "out/"), world0).
Proof.
  exact (proj1 (exists_failure_propagates native_fs_broken (rw_handler []) 0
                  {[ "name" := PA_string "run" ]} world0 eq_refl) eq_refl).
Defined.
